(** * nyx / fika: table cleaning and classification metrics

    A shallow embedding of [src/fika/cleaning/clean.py] (class [Clean]) and
    [src/nyx/model_analysis/classification_model_analysis.py]
    (class [ClassificationModelAnalysis]).

    The Python methods mutate [self] and may raise; they are embedded as
    functions from the object's state to an outcome together with the state
    left behind, so that a failure part-way through a method is visible.
    The pandas operations the methods call are written out in [Module Pandas]
    on a table that is an index and an ordered list of labelled columns.
    Floating-point quotients (fractions of missing entries, thresholds,
    normalised counts, scores) are exact rationals here; a property that
    rests on comparing a fraction of missing entries with a threshold is
    stated for the thresholds on which the doubles compare as the exact
    numbers do ([Spec.few_binary_digits]). *)

From Stdlib Require Import List String Ascii ZArith QArith Qround Bool Lia Arith Sorted.
Import ListNotations.

Set Implicit Arguments.

(** ** Python exceptions and outcomes *)

Inductive exn : Type :=
| ValueError (msg : string)
| KeyError (key : string)
| TypeError (msg : string)
| NameError (name : string)
| UnboundLocalError (name : string)
| ZeroDivisionError (msg : string).

(** [UnboundLocalError] is a subclass of [NameError]. *)
Definition isinstance_NameError (e : exn) : bool :=
  match e with
  | NameError _ | UnboundLocalError _ => true
  | _ => false
  end.

Inductive outcome (A : Type) : Type :=
| Returned (a : A)
| Raised (e : exn).
Arguments Returned {A} a.
Arguments Raised {A} e.

Definition obind {A B} (o : outcome A) (k : A -> outcome B) : outcome B :=
  match o with
  | Returned a => k a
  | Raised e => Raised e
  end.

Definition returned {A} (o : outcome A) : bool :=
  match o with Returned _ => true | Raised _ => false end.

Definition returned_true (o : outcome bool) : bool :=
  match o with Returned true => true | _ => false end.

Fixpoint omap {A B} (f : A -> outcome B) (l : list A) : outcome (list B) :=
  match l with
  | [] => Returned []
  | a :: l' => obind (f a) (fun b => obind (omap f l') (fun bs => Returned (b :: bs)))
  end.

(** ** Tables *)

Module Pandas.

(** A stored entry.  [VList] stands for the unhashable Python objects (lists)
    an object column may hold; pandas' hash-based routines raise on them. *)
Inductive value : Type :=
| VInt (z : Z)
| VStr (s : string)
| VList (l : list Z).

(** [None] is a missing entry (NaN / None). *)
Definition cell : Type := option value.
Definition label : Type := string.
Definition column : Type := list cell.

Record DataFrame : Type := mkFrame {
  index : list Z;
  data : list (label * column)
}.

Definition value_eq_dec (a b : value) : {a = b} + {a <> b}.
Proof.
  decide equality; [apply Z.eq_dec | apply string_dec | apply (list_eq_dec Z.eq_dec)].
Defined.

Definition cell_eq_dec (a b : cell) : {a = b} + {a <> b}.
Proof. decide equality; apply value_eq_dec. Defined.

Definition column_eq_dec : forall a b : column, {a = b} + {a <> b} :=
  list_eq_dec cell_eq_dec.

Definition hashable (v : value) : bool :=
  match v with VList _ => false | _ => true end.

Definition cell_hashable (c : cell) : bool :=
  match c with Some v => hashable v | None => true end.

Definition columns (df : DataFrame) : list label := map fst (data df).

(** [df.shape] *)
Definition shape0 (df : DataFrame) : nat := List.length (index df).
Definition shape1 (df : DataFrame) : nat := List.length (data df).

(** A table is rectangular: every column has one entry per index entry. *)
Definition rectangular (df : DataFrame) : Prop :=
  Forall (fun c => List.length (snd c) = shape0 df) (data df).

(** [df.empty] *)
Definition empty (df : DataFrame) : bool :=
  (shape0 df =? 0)%nat || (shape1 df =? 0)%nat.

(** [Series.isnull()] *)
Definition isnull (c : column) : list bool :=
  map (fun x => match x with None => true | Some _ => false end) c.

Definition count_true (m : list bool) : nat := List.length (filter (fun b => b) m).

(** [Series.mean()] of a boolean series; [None] is NaN (no entries). *)
Definition mean (m : list bool) : option Q :=
  match m with
  | [] => None
  | _ => Some (inject_Z (Z.of_nat (count_true m)) / inject_Z (Z.of_nat (List.length m)))
  end.

Definition Qltb (a b : Q) : bool := negb (Qle_bool b a).

(** [x < t] where [x] may be NaN: every comparison with NaN is false. *)
Definition nan_lt (x : option Q) (t : Q) : bool :=
  match x with
  | Some q => Qltb q t
  | None => false
  end.

(** [df.isnull().mean()]: one entry per column, in column order. *)
Definition isnull_mean (df : DataFrame) : list (option Q) :=
  map (fun c => mean (isnull (snd c))) (data df).

(** [idx[mask]]: positional selection by a boolean mask. *)
Fixpoint mask_select {A} (l : list A) (m : list bool) : list A :=
  match l, m with
  | a :: l', b :: m' => if b then a :: mask_select l' m' else mask_select l' m'
  | _, _ => []
  end.

Definition lookup_all (l : label) (d : list (label * column)) : list (label * column) :=
  filter (fun p => String.eqb (fst p) l) d.

(** [df[labels]] with a list of labels: for each label in turn every column
    carrying it; [KeyError] when a label names no column. *)
Fixpoint select (d : list (label * column)) (labels : list label)
  : outcome (list (label * column)) :=
  match labels with
  | [] => Returned []
  | l :: ls =>
      match lookup_all l d with
      | [] => Raised (KeyError l)
      | found => obind (select d ls) (fun r => Returned (found ++ r))
      end
  end.

Definition getitem_list (df : DataFrame) (labels : list label) : outcome DataFrame :=
  obind (select (data df) labels) (fun d => Returned (mkFrame (index df) d)).

(** [df[label]] with one label: the column; [KeyError] when absent.  With a
    repeated label pandas hands back a sub-table, which the callers below
    cannot use as a column: they fail with [ValueError]. *)
Definition getitem (df : DataFrame) (l : label) : outcome column :=
  match lookup_all l (data df) with
  | [] => Raised (KeyError l)
  | [c] => Returned (snd c)
  | _ => Raised (ValueError "2-D selection used as a column")
  end.

(** Distinct values, first occurrences kept. *)
Fixpoint unique (vs : list value) : list value :=
  match vs with
  | [] => []
  | v :: vs' => v :: filter (fun w => if value_eq_dec v w then false else true) (unique vs')
  end.

Definition dropna_values (c : column) : list value :=
  flat_map (fun x => match x with Some v => [v] | None => [] end) c.

(** [Series.nunique()]: number of distinct non-missing values; the values are
    hashed, so an unhashable entry raises [TypeError]. *)
Definition Series_nunique (c : column) : outcome nat :=
  if forallb cell_hashable c
  then Returned (List.length (unique (dropna_values c)))
  else Raised (TypeError "unhashable type: 'list'").

(** [df.nunique()]: [Series.nunique] applied to every column; the first
    failure aborts the whole call. *)
Definition nunique (df : DataFrame) : outcome (list (label * nat)) :=
  omap (fun c => obind (Series_nunique (snd c)) (fun n => Returned (fst c, n))) (data df).

(** [s[label]] on a series indexed by labels: a scalar when the label is
    unique, a sub-series when it is repeated. *)
Definition series_getitem (s : list (label * nat)) (l : label) : outcome (nat + list nat) :=
  match filter (fun p => String.eqb (fst p) l) s with
  | [] => Raised (KeyError l)
  | [p] => Returned (inl (snd p))
  | ps => Returned (inr (map snd ps))
  end.

Definition ambiguous : exn :=
  ValueError "The truth value of a Series is ambiguous.".

(** [x not in [0, 1]]; comparing a sub-series with a number yields a series,
    whose truth value raises. *)
Definition not_in_0_1 (x : nat + list nat) : outcome bool :=
  match x with
  | inl n => Returned (negb ((n =? 0)%nat || (n =? 1)%nat))
  | inr _ => Raised ambiguous
  end.

(** [x != n] used as a condition. *)
Definition ne_cond (x : nat + list nat) (n : nat) : outcome bool :=
  match x with
  | inl k => Returned (negb (k =? n)%nat)
  | inr _ => Raised ambiguous
  end.

(** Python's [round] to an integer: ties go to the even neighbour. *)
Definition py_round (q : Q) : Z :=
  let f := Qfloor q in
  match Qcompare (q - inject_Z f) (1 # 2) with
  | Lt => f
  | Gt => (f + 1)%Z
  | Eq => if Z.even f then f else (f + 1)%Z
  end.

(** Entry [i] of every column: row [i]. *)
Definition row (df : DataFrame) (i : nat) : list cell :=
  map (fun c => nth i (snd c) None) (data df).

Definition count_notnull (r : list cell) : nat :=
  count_true (map negb (isnull r)).

(** [df.dropna(thresh=t, axis=0)]: keep the rows holding at least [t]
    non-missing entries. *)
Definition dropna_thresh (df : DataFrame) (t : Z) : DataFrame :=
  let keep := map (fun i => (t <=? Z.of_nat (count_notnull (row df i)))%Z)
                  (seq 0 (shape0 df)) in
  mkFrame (mask_select (index df) keep)
          (map (fun c => (fst c, mask_select (snd c) keep)) (data df)).

(** Columns whose entries repeat those of an earlier column are dropped
    ([duplicated(keep='first')] on the transpose). *)
Fixpoint keep_first (seen : list column) (d : list (label * column))
  : list (label * column) :=
  match d with
  | [] => []
  | c :: d' =>
      if in_dec column_eq_dec (snd c) seen
      then keep_first seen d'
      else c :: keep_first (snd c :: seen) d'
  end.

(** [df.T.drop_duplicates().T].  [drop_duplicates] returns an empty table as
    it is; otherwise the rows of the transpose are hashed, so an unhashable
    entry raises [TypeError]. *)
Definition T_drop_duplicates_T (df : DataFrame) : outcome DataFrame :=
  if empty df then Returned df
  else if forallb (fun c => forallb cell_hashable (snd c)) (data df)
  then Returned (mkFrame (index df) (keep_first [] (data df)))
  else Raised (TypeError "unhashable type: 'list'").

(** A 2-D array ([numpy.ndarray]); [width] is [shape[1]], kept apart so that
    an array without rows still has one. *)
Record ndarray : Type := mkArray {
  width : nat;
  rows : list (list cell)
}.

(** [df.values] *)
Definition values (df : DataFrame) : ndarray :=
  mkArray (shape1 df) (map (row df) (seq 0 (shape0 df))).

(** [pd.DataFrame(data=a, columns=labels)]: a fresh range index; the array
    must be as wide as the list of labels. *)
Definition DataFrame_of (a : ndarray) (labels : list label) : outcome DataFrame :=
  if (width a =? List.length labels)%nat
  then Returned
         (mkFrame (map Z.of_nat (seq 0 (List.length (rows a))))
                  (map (fun jl => (snd jl, map (fun r => nth (fst jl) r None) (rows a)))
                       (combine (seq 0 (List.length labels)) labels)))
  else Raised (ValueError "Shape of passed values does not match the columns").

(** [df[l] = vals] with a list of values: an existing column of that label is
    overwritten where it stands, otherwise the column is appended.  (The
    methods below only assign to a table they have just read a column of.) *)
Definition setitem (df : DataFrame) (l : label) (vals : column) : outcome DataFrame :=
  if (List.length vals =? shape0 df)%nat
  then Returned
         (mkFrame (index df)
                  (match lookup_all l (data df) with
                   | [] => data df ++ [(l, vals)]
                   | _ => map (fun c => if String.eqb (fst c) l then (l, vals) else c)
                              (data df)
                   end))
  else Raised (ValueError "Length of values does not match length of index").

(** [df.drop(labels, axis=1)] *)
Definition drop (df : DataFrame) (labels : list label) : outcome DataFrame :=
  match filter (fun l => negb (existsb (String.eqb l) (columns df))) labels with
  | [] => Returned
            (mkFrame (index df)
                     (filter (fun c => negb (existsb (String.eqb (fst c)) labels))
                             (data df)))
  | l :: _ => Raised (KeyError l)
  end.

(** Stable insertion by descending count. *)
Fixpoint insert_desc (p : value * nat) (l : list (value * nat)) : list (value * nat) :=
  match l with
  | [] => [p]
  | q :: l' => if (snd q <=? snd p)%nat then p :: q :: l' else q :: insert_desc p l'
  end.

Definition sort_desc (l : list (value * nat)) : list (value * nat) :=
  fold_right insert_desc [] l.

(** [Series.value_counts(normalize=True)]: the distinct non-missing values,
    most frequent first, each with its share of the non-missing entries.
    The routine does not raise, also on entries that cannot be hashed; a
    column without a present entry has no counts. *)
Definition value_counts (c : column) : list (value * Q) :=
  let vs := dropna_values c in
  map (fun p => (fst p, inject_Z (Z.of_nat (snd p)) / inject_Z (Z.of_nat (List.length vs))))
      (sort_desc (map (fun v => (v, count_occ value_eq_dec vs v)) (unique vs))).

(** Entries under a true mask bit are replaced, in order, by the values of
    [arr]. *)
Fixpoint fill (c : column) (m : list bool) (arr : list value) : column :=
  match c, m with
  | x :: c', true :: m' =>
      match arr with
      | v :: arr' => Some v :: fill c' m' arr'
      | [] => x :: fill c' m' []
      end
  | x :: c', false :: m' => x :: fill c' m' arr
  | _, _ => c
  end.

(** [df.loc[m, l] = arr] with a boolean mask [m] and an array [arr]: the
    array must hold one value per masked row. *)
Definition loc_setitem (df : DataFrame) (m : list bool) (l : label) (arr : list value)
  : outcome DataFrame :=
  if (List.length arr =? count_true m)%nat
  then Returned
         (mkFrame (index df)
                  (map (fun c => if String.eqb (fst c) l then (fst c, fill (snd c) m arr) else c)
                       (data df)))
  else Raised (ValueError "shape mismatch").

End Pandas.

(** ** The [Clean] object: state, failure and the statement monad *)

Module Clean.
Import Pandas.

(** The attributes of [self] the methods read and assign, together with the
    two streams they write to ([print] and [warnings.warn]).  The methods name
    the tables [train_data]/[test_data] in some places and [x_train]/[x_test]
    in others; they are kept as the code has them, as separate attributes. *)
Record obj : Type := mkObj {
  train_data : DataFrame;
  test_data : option DataFrame;
  x_train : DataFrame;
  x_test : option DataFrame;
  stdout : list string;
  warned : list string
}.

(** A method body: runs on the object, returns or raises, and leaves the
    object as it was at that point. *)
Definition M (A : Type) : Type := obj -> outcome A * obj.

Definition ret {A} (a : A) : M A := fun s => (Returned a, s).
Definition raise {A} (e : exn) : M A := fun s => (Raised e, s).
Definition lift {A} (o : outcome A) : M A := fun s => (o, s).
Definition get {A} (f : obj -> A) : M A := fun s => (Returned (f s), s).

Definition bind {A B} (m : M A) (k : A -> M B) : M B :=
  fun s =>
    match m s with
    | (Returned a, s') => k a s'
    | (Raised e, s') => (Raised e, s')
    end.

(** [try: m except Exception as e: h e] *)
Definition try_except {A} (m : M A) (h : exn -> M A) : M A :=
  fun s =>
    match m s with
    | (Raised e, s') => h e s'
    | r => r
    end.

Declare Scope py_scope.
Delimit Scope py_scope with py.
Notation "x <- m ;; k" := (bind m (fun x => k))
  (at level 61, m at next level, right associativity) : py_scope.
Notation "m ;;; k" := (bind m (fun _ => k))
  (at level 61, right associativity) : py_scope.
Local Open Scope py_scope.

Definition set_train_data (df : DataFrame) : M unit :=
  fun s => (Returned tt,
            mkObj df (test_data s) (x_train s) (x_test s) (stdout s) (warned s)).
Definition set_test_data (df : option DataFrame) : M unit :=
  fun s => (Returned tt,
            mkObj (train_data s) df (x_train s) (x_test s) (stdout s) (warned s)).
Definition set_x_train (df : DataFrame) : M unit :=
  fun s => (Returned tt,
            mkObj (train_data s) (test_data s) df (x_test s) (stdout s) (warned s)).
Definition set_x_test (df : option DataFrame) : M unit :=
  fun s => (Returned tt,
            mkObj (train_data s) (test_data s) (x_train s) df (stdout s) (warned s)).
Definition print (line : string) : M unit :=
  fun s => (Returned tt,
            mkObj (train_data s) (test_data s) (x_train s) (x_test s)
                  (stdout s ++ [line]) (warned s)).
Definition warn (msg : string) : M unit :=
  fun s => (Returned tt,
            mkObj (train_data s) (test_data s) (x_train s) (x_test s)
                  (stdout s) (warned s ++ [msg])).

(** Running a method body symbolically: unfold the monad's operations. *)
Ltac run :=
  unfold bind, get, lift, ret, raise, set_train_data, set_test_data,
         set_x_train, set_x_test, print, warn, try_except; simpl.

Definition threshold_message : string :=
  "Threshold cannot be greater than 1 or less than 0.".

(** [drop_column_missing_threshold], clean.py lines 36-48. *)
Definition drop_column_missing_threshold (threshold : Q) : M unit :=
  if Qltb 1 threshold || Qltb threshold 0
  then raise (ValueError threshold_message)
  else
    train <- get train_data ;;
    let criteria_meeting_columns :=
      mask_select (columns train)
                  (map (fun m => nan_lt m threshold) (isnull_mean train)) in
    train' <- lift (getitem_list train criteria_meeting_columns) ;;
    set_train_data train' ;;;
    test <- get test_data ;;
    match test with
    | Some te =>
        te' <- lift (getitem_list te criteria_meeting_columns) ;;
        set_test_data (Some te')
    | None => ret tt
    end.

Definition could_not_be_processed (col : label) : string :=
  ("Column " ++ col ++ " could not be processed.")%string.

(** [df.nunique()[col] not in [0, 1]], line 70. *)
Definition nunique_not_in_0_1 (df : DataFrame) (col : label) : outcome bool :=
  obind (nunique df) (fun counts =>
  obind (series_getitem counts col) not_in_0_1).

(** The loop of [drop_constant_columns], lines 68-73: [keep] is
    [keep_columns] so far. *)
Fixpoint constant_loop (cols : list label) (keep : list label) : M (list label) :=
  match cols with
  | [] => ret keep
  | col :: rest =>
      keep' <- try_except
                 (train <- get train_data ;;
                  b <- lift (nunique_not_in_0_1 train col) ;;
                  ret (if b then keep ++ [col] else keep))
                 (fun _ => print (could_not_be_processed col) ;;; ret keep) ;;
      constant_loop rest keep'
  end.

(** [drop_constant_columns], lines 66-80. *)
Definition drop_constant_columns : M unit :=
  train <- get train_data ;;
  keep_columns <- constant_loop (columns train) [] ;;
  train <- get train_data ;;
  train' <- lift (getitem_list train keep_columns) ;;
  set_train_data train' ;;;
  test <- get test_data ;;
  match test with
  | Some te =>
      te' <- lift (getitem_list te keep_columns) ;;
      set_test_data (Some te')
  | None => ret tt
  end.

(** [list(filter(p, l))] with a predicate that may raise. *)
Fixpoint ofilter {A} (p : A -> outcome bool) (l : list A) : outcome (list A) :=
  match l with
  | [] => Returned []
  | a :: l' =>
      obind (p a) (fun b =>
      obind (ofilter p l') (fun r => Returned (if b then a :: r else r)))
  end.

(** [drop_unique_columns], lines 98-110. *)
Definition drop_unique_columns : M unit :=
  train <- get train_data ;;
  keep_columns <- lift (ofilter
                          (fun x => obind (nunique train) (fun counts =>
                                    obind (series_getitem counts x) (fun n =>
                                    ne_cond n (shape0 train))))
                          (columns train)) ;;
  train' <- lift (getitem_list train keep_columns) ;;
  set_train_data train' ;;;
  test <- get test_data ;;
  match test with
  | Some te =>
      te' <- lift (getitem_list te keep_columns) ;;
      set_test_data (Some te')
  | None => ret tt
  end.

(** [round(df.shape[1] * threshold)] *)
Definition row_thresh (df : DataFrame) (threshold : Q) : Z :=
  py_round (inject_Z (Z.of_nat (shape1 df)) * threshold).

(** [drop_rows_missing_threshold], lines 131-143. *)
Definition drop_rows_missing_threshold (threshold : Q) : M unit :=
  if Qltb 1 threshold || Qltb threshold 0
  then raise (ValueError threshold_message)
  else
    train <- get train_data ;;
    set_train_data (dropna_thresh train (row_thresh train threshold)) ;;;
    test <- get test_data ;;
    match test with
    | Some te => set_test_data (Some (dropna_thresh te (row_thresh te threshold)))
    | None => ret tt
    end.

(** [drop_duplicate_columns], lines 450-455. *)
Definition drop_duplicate_columns : M unit :=
  train <- get train_data ;;
  train' <- lift (T_drop_duplicates_T train) ;;
  set_train_data train' ;;;
  test <- get test_data ;;
  match test with
  | Some te =>
      te' <- lift (T_drop_duplicates_T te) ;;
      set_test_data (Some te')
  | None => ret tt
  end.

(** *** Missing-value indicators *)

Section Selector.

(** [fika.util._input_columns] resolves the positional columns and the
    [list_of_cols] keyword to the list of target columns; its module is not
    among the sources, so it is a parameter here. *)
Variable _input_columns : list label -> list label -> list label.

(** [[missing_indicator if x else valid_indicator for x in c.isnull()]] *)
Definition indicator (missing_indicator valid_indicator : cell) (c : column) : column :=
  map (fun x : bool => if x then missing_indicator else valid_indicator) (isnull c).

Definition missing_name (col : label) : label := (col ++ "_missing")%string.

(** The loop of [replace_missing_indicator], lines 742-758. *)
Fixpoint indicator_loop (cols : list label) (missing_indicator valid_indicator : cell)
         (keep_col : bool) : M unit :=
  match cols with
  | [] => ret tt
  | col :: rest =>
      train <- get x_train ;;
      c <- lift (getitem train col) ;;
      train' <- lift (setitem train (missing_name col)
                              (indicator missing_indicator valid_indicator c)) ;;
      set_x_train train' ;;;
      (if keep_col then ret tt
       else train <- get x_train ;;
            train' <- lift (drop train [col]) ;;
            set_x_train train') ;;;
      test <- get x_test ;;
      match test with
      | Some te =>
          c <- lift (getitem te col) ;;
          te' <- lift (setitem te (missing_name col)
                               (indicator missing_indicator valid_indicator c)) ;;
          set_x_test (Some te') ;;;
          (if keep_col then ret tt
           else te'' <- lift (drop te' [col]) ;;
                set_x_test (Some te''))
      | None => ret tt
      end ;;;
      indicator_loop rest missing_indicator valid_indicator keep_col
  end.

(** [replace_missing_indicator], lines 740-760. *)
Definition replace_missing_indicator (list_args list_of_cols : list label)
           (missing_indicator valid_indicator : cell) (keep_col : bool) : M unit :=
  indicator_loop (_input_columns list_args list_of_cols)
                 missing_indicator valid_indicator keep_col.

(** The defaults of the keyword arguments. *)
Definition default_missing_indicator : cell := Some (VInt 1).
Definition default_valid_indicator : cell := Some (VInt 0).
Definition default_keep_col : bool := true.

(** *** Random discrete replacement *)

(** [numpy.random.choice(a, size=n, replace=True, p=p)] draws from the
    generator's state and moves it on; generator and routine are
    parameters. *)
Variable rng : Type.
Variable choice : list value -> nat -> list Q -> rng -> outcome (list value) * rng.

(** Lines 493-499 (and 502-508 for the test table): the missing entries of
    column [col] of [df] are assigned a draw made with [probabilities]. *)
Definition fill_from (probabilities : list (value * Q)) (df : DataFrame) (col : label)
           (g : rng) : outcome (DataFrame * rng) :=
  obind (getitem df col) (fun c =>
  let missing_data := isnull c in
  let drawn := choice (map fst probabilities) (count_true missing_data)
                      (map snd probabilities) g in
  obind (fst drawn) (fun arr =>
  obind (loc_setitem df missing_data col arr) (fun df' =>
  Returned (df', snd drawn)))).

(** The loop of [replace_missing_random_discrete], lines 490-508; the value
    is the generator state after the last draw. *)
Fixpoint random_discrete_loop (cols : list label) (g : rng) : M rng :=
  match cols with
  | [] => ret g
  | col :: rest =>
      train <- get x_train ;;
      c <- lift (getitem train col) ;;
      let probabilities := value_counts c in
      r <- lift (fill_from probabilities train col g) ;;
      set_x_train (fst r) ;;;
      test <- get x_test ;;
      g' <- match test with
            | Some te =>
                r' <- lift (fill_from probabilities te col (snd r)) ;;
                set_x_test (Some (fst r')) ;;;
                ret (snd r')
            | None => ret (snd r)
            end ;;
      random_discrete_loop rest g'
  end.

(** [replace_missing_random_discrete], lines 488-510. *)
Definition replace_missing_random_discrete (list_args list_of_cols : list label)
           (g : rng) : M rng :=
  random_discrete_loop (_input_columns list_args list_of_cols) g.

End Selector.

(** Modelled from the spec: [_input_columns] of [fika.util], which is not
    among the sources.  "Column selector resolution: ... use explicit column
    arguments": the [list_of_cols] keyword when it is given, otherwise the
    positional columns.  It stands in for the parameter where a concrete
    resolver is needed. *)
Definition explicit_columns (list_args list_of_cols : list label) : list label :=
  match list_of_cols with
  | [] => list_args
  | _ => list_of_cols
  end.

(** *** Nearest-neighbour imputation *)

Inductive kwvalue : Type :=
| KInt (z : Z)
| KStr (s : string).

Definition kwargs : Type := list (string * kwvalue).

(** [d.pop(key, default)]: the value and the dictionary without the key. *)
Definition pop (d : kwargs) (key : string) (default : kwvalue) : kwvalue * kwargs :=
  match find (fun p => String.eqb (fst p) key) d with
  | Some p => (snd p, filter (fun p => negb (String.eqb (fst p) key)) d)
  | None => (default, d)
  end.

Definition knn_warning : string :=
  "If your test data does not come from the same distribution of the training data, it may lead to erroneous results.".

Section Imputer.

(** [sklearn.impute.KNNImputer]: the constructor and [fit_transform] are
    parameters; both may raise. *)
Variable imputer : Type.
Variable KNNImputer : kwvalue -> kwargs -> outcome imputer.
Variable fit_transform : imputer -> ndarray -> outcome ndarray.

(** [replace_missing_knn], lines 547-562.  The local [test_knn_transformed]
    is bound only in the branch for a present test table; [None] below is the
    unbound local. *)
Definition replace_missing_knn (k : Z) (knn_kwargs : kwargs) : M unit :=
  let popped := pop knn_kwargs "n_neighbors" (KInt 5) in
  let neighbors := fst popped in
  let knn_kwargs := snd popped in
  train <- get train_data ;;
  let columns := columns train in
  knn <- lift (KNNImputer neighbors knn_kwargs) ;;
  train_knn_transformed <- lift (fit_transform knn (values train)) ;;
  test <- get test_data ;;
  test_knn_transformed <-
    match test with
    | Some te =>
        warn knn_warning ;;;
        t <- lift (fit_transform knn (values te)) ;;
        ret (Some t)
    | None => ret None
    end ;;
  train' <- lift (DataFrame_of train_knn_transformed columns) ;;
  set_train_data train' ;;;
  match test_knn_transformed with
  | Some t =>
      test' <- lift (DataFrame_of t columns) ;;
      set_test_data (Some test')
  | None => raise (UnboundLocalError "test_knn_transformed")
  end.

End Imputer.

End Clean.

(** ** Classification metrics *)

Module ClassificationModelAnalysis.

(** A Python float: a number or [numpy.nan]. *)
Inductive pyfloat : Type :=
| NaN
| Float (q : Q).

(** The keyword arguments [sklearn.metrics.accuracy_score] accepts. *)
Record accuracy_kwargs : Type := mkAccuracyKwargs {
  normalize : bool;
  sample_weight : option (list Q)
}.

Definition no_kwargs : accuracy_kwargs := mkAccuracyKwargs true None.

Definition Qsum (l : list Q) : Q := fold_right Qplus 0 l.

Definition as_number (b : bool) : Q := if b then 1 else 0.

(** [numpy.average(score, weights=w)] *)
Definition np_average (score : list bool) (w : option (list Q)) : outcome pyfloat :=
  match w with
  | None =>
      match score with
      | [] => Returned NaN
      | _ => Returned (Float (Qsum (map as_number score)
                              / inject_Z (Z.of_nat (List.length score))))
      end
  | Some ws =>
      if Qeq_bool (Qsum ws) 0
      then Raised (ZeroDivisionError "Weights sum to zero, can't be normalized")
      else Returned (Float (Qsum (map (fun p => as_number (fst p) * snd p) (combine score ws))
                            / Qsum ws))
  end.

(** [sklearn.metrics.accuracy_score(y_true, y_pred, normalize, sample_weight)]
    for label vectors: the inputs must be equally long; the score of a
    position is whether the two labels agree; the scores are averaged
    (weighted when weights are given) or, without [normalize], summed. *)
Definition accuracy_score (y_true y_pred : list Z) (kw : accuracy_kwargs) : outcome pyfloat :=
  if negb (List.length y_true =? List.length y_pred)%nat
     || match sample_weight kw with
        | Some ws => negb (List.length ws =? List.length y_true)%nat
        | None => false
        end
  then Raised (ValueError "Found input variables with inconsistent numbers of samples")
  else
    let score := map (fun p => Z.eqb (fst p) (snd p)) (combine y_true y_pred) in
    if normalize kw then np_average score (sample_weight kw)
    else match sample_weight kw with
         | Some ws => Returned (Float (Qsum (map (fun p => as_number (fst p) * snd p)
                                                 (combine score ws))))
         | None => Returned (Float (Qsum (map as_number score)))
         end.

Section Analysis.

(** The feature table, the output of a decision function and the keyword
    arguments of the average-precision formula belong to the libraries. *)
Variables features scores ap_kwargs : Type.

(** [sklearn.metrics.average_precision_score] *)
Variable average_precision_score : list Z -> scores -> ap_kwargs -> outcome pyfloat.

(** A model handle; [decision_function] is [None] when the model object has
    no such attribute. *)
Record model_handle : Type := mkModel {
  decision_function : option (features -> outcome scores)
}.

Definition hasattr_decision_function (m : model_handle) : bool :=
  match decision_function m with Some _ => true | None => false end.

(** The attributes of the analysis object the metric methods read. *)
Record analysis : Type := mkAnalysis {
  model : model_handle;
  x_test : features;
  y_test : list Z;
  y_pred : list Z
}.

(** [accuracy], line 65. *)
Definition accuracy (self : analysis) (kw : accuracy_kwargs) : outcome pyfloat :=
  accuracy_score (y_test self) (y_pred self) kw.

(** [average_precision], lines 100-105. *)
Definition average_precision (self : analysis) (kw : ap_kwargs) : outcome pyfloat :=
  match decision_function (model self) with
  | Some f =>
      obind (f (x_test self)) (fun out =>
      average_precision_score (y_test self) out kw)
  | None => Returned NaN
  end.

End Analysis.

End ClassificationModelAnalysis.

(** ** Concrete tables used in the evaluations below *)

Module Examples.
Import Pandas Clean.

Definition int (z : Z) : cell := Some (VInt z).
Definition str (s : string) : cell := Some (VStr s).
Definition nan : cell := None.

Definition only_train (df : DataFrame) : obj := mkObj df None df None [] [].
Definition train_test (tr te : DataFrame) : obj := mkObj tr (Some te) tr (Some te) [] [].

(** Three rows over two columns: nothing missing, half missing, all
    missing. *)
Definition graded : DataFrame :=
  mkFrame [0; 1; 2]%Z
          [("a"%string, [int 1; nan; nan]); ("b"%string, [int 2; int 3; nan])].

(** Train and test tables over the same two columns; the columns repeat each
    other in the train table only. *)
Definition twin_train : DataFrame :=
  mkFrame [0; 1]%Z [("a"%string, [int 1; int 2]); ("b"%string, [int 1; int 2])].
Definition twin_test : DataFrame :=
  mkFrame [0; 1]%Z [("a"%string, [int 1; int 2]); ("b"%string, [int 1; int 3])].

(** A table with a column of lists, which cannot be hashed. *)
Definition with_lists : DataFrame :=
  mkFrame [0; 1]%Z
          [("a"%string, [int 1; int 2]);
           ("b"%string, [Some (VList [1%Z]); Some (VList [2%Z])])].

(** A table in which the label [a] is carried by two columns. *)
Definition repeated_label : DataFrame :=
  mkFrame [0; 1]%Z
          [("a"%string, [int 1; int 2]); ("a"%string, [int 3; int 4]);
           ("b"%string, [int 5; int 6]); ("c"%string, [int 7; int 7])].

(** A constant column, an all-missing column and two varied ones. *)
Definition assorted : DataFrame :=
  mkFrame [0; 1; 2]%Z
          [("k"%string, [int 4; int 4; nan]); ("u"%string, [int 1; int 2; int 3]);
           ("m"%string, [nan; nan; nan]); ("v"%string, [str "x"; str "y"; str "x"])].

(** A table that already has a column named [a_missing]. *)
Definition taken_name : DataFrame :=
  mkFrame [0; 1]%Z
          [("a"%string, [int 1; nan]); ("a_missing"%string, [int 7; int 7])].

(** Train and test tables over the columns [a], [b]. *)
Definition gaps_train : DataFrame :=
  mkFrame [0; 1; 2]%Z
          [("a"%string, [int 1; nan; int 1]); ("b"%string, [nan; str "x"; str "y"])].
Definition gaps_test : DataFrame :=
  mkFrame [0; 1]%Z
          [("a"%string, [nan; int 5]); ("b"%string, [str "z"; nan])].

(** A training table whose column [a] has no present entry. *)
Definition blank_train : DataFrame :=
  mkFrame [0; 1]%Z
          [("a"%string, [nan; nan]); ("b"%string, [str "x"; str "y"])].

(** A table of words. *)
Definition words : DataFrame :=
  mkFrame [0; 1]%Z [("w"%string, [str "x"; str "y"])].

(** A stand-in for the imputer that behaves as the library does at its
    border: the constructor stores its arguments, and [fit_transform] refuses
    an array holding anything but integers and gaps with [ValueError].  An
    array without gaps needs no imputation and is handed back; an array with
    gaps is outside what this stand-in computes. *)
Definition make_imputer (n_neighbors : kwvalue) (kw : kwargs) : outcome (kwvalue * kwargs) :=
  Returned (n_neighbors, kw).

Definition numeric (c : cell) : bool :=
  match c with
  | Some (VInt _) | None => true
  | _ => false
  end.

Definition complete (c : cell) : bool :=
  match c with Some _ => true | None => false end.

Definition checked_fit_transform (knn : kwvalue * kwargs) (a : ndarray) : outcome ndarray :=
  if forallb (forallb numeric) (rows a)
  then if forallb (forallb complete) (rows a)
       then Returned a
       else Raised (ValueError "imputation of gaps is not computed here")
  else Raised (ValueError "could not convert string to float").

(** A generator that counts what it has drawn and always draws the first
    (most frequent) value; like the library it refuses to draw from
    nothing. *)
Definition first_choice (a : list value) (n : nat) (p : list Q) (g : nat)
  : outcome (list value) * nat :=
  match a, n with
  | [], S _ => (Raised (ValueError "'a' cannot be empty unless no samples are taken"), g)
  | [], O => (Returned [], g)
  | v :: _, _ => (Returned (repeat v n), (g + n)%nat)
  end.

End Examples.

(** ** The specification's reading of the threshold drops *)

Module Spec.
Import Pandas.

(** Fraction of missing entries of a row or column; [None] when it has no
    entries. *)
Definition fraction_missing (c : list cell) : option Q := mean (isnull c).

(** A threshold with few binary digits for a table of [rows] rows: a multiple
    [T / 2^j] of a power of a half, with [rows * 2^j <= 2^52].  The code
    divides and compares doubles.  Such a threshold is a double, and a
    fraction [k / rows] below it is below it by [2^-52] or more, which is
    more than rounding the quotient moves it; so the doubles compare as the
    exact numbers do. *)
Definition few_binary_digits (threshold : Q) (rows : nat) : Prop :=
  exists (T : Z) (j : nat),
    threshold == inject_Z T / inject_Z (2 ^ Z.of_nat j)
    /\ (Z.of_nat rows * 2 ^ Z.of_nat j <= 2 ^ 52)%Z.

(** "Remove exactly the rows whose fraction of missing entries is greater
    than or equal to the threshold": a row stays when its fraction is below
    the threshold. *)
Definition row_stays (df : DataFrame) (threshold : Q) (i : nat) : bool :=
  nan_lt (fraction_missing (row df i)) threshold.

Definition drop_rows (df : DataFrame) (threshold : Q) : DataFrame :=
  let keep := map (row_stays df threshold) (seq 0 (shape0 df)) in
  mkFrame (mask_select (index df) keep)
          (map (fun c => (fst c, mask_select (snd c) keep)) (data df)).

(** Count of unique non-missing values of a column. *)
Definition unique_count (c : column) : nat := List.length (unique (dropna_values c)).

Definition constant (c : column) : bool :=
  (unique_count c =? 0)%nat || (unique_count c =? 1)%nat.

(** "Removes exactly the columns whose count of unique non-missing values is
    0 or 1, and keeps every other column, preserving their relative
    order." *)
Definition drop_constant_columns (df : DataFrame) : DataFrame :=
  mkFrame (index df) (filter (fun c => negb (constant (snd c))) (data df)).

(** The indicator entry of a row: "the missing indicator if the target entry
    in that row is missing and the valid indicator otherwise". *)
Definition flag (missing_indicator valid_indicator : cell) (x : cell) : cell :=
  match x with
  | None => missing_indicator
  | Some _ => valid_indicator
  end.

(** The column a label names (the first, should there be several). *)
Definition column_of (df : DataFrame) (l : label) : column :=
  match lookup_all l (data df) with
  | c :: _ => snd c
  | [] => []
  end.

(** The targets without repetitions, in order of first mention. *)
Fixpoint first_occurrences (seen targets : list label) : list label :=
  match targets with
  | [] => []
  | t :: rest =>
      if in_dec string_dec t seen
      then first_occurrences seen rest
      else t :: first_occurrences (seen ++ [t]) rest
  end.

(** One indicator column per listed target, "named by appending [_missing]
    to the target column's name". *)
Definition indicator_columns (missing_indicator valid_indicator : cell)
           (df : DataFrame) (ts : list label) : list (label * column) :=
  map (fun t => (Clean.missing_name t,
                 map (flag missing_indicator valid_indicator) (column_of df t)))
      ts.

(** The table followed by the indicator columns of the listed targets. *)
Definition extended (missing_indicator valid_indicator : cell)
           (df : DataFrame) (ts : list label) : DataFrame :=
  mkFrame (index df)
          (data df ++ indicator_columns missing_indicator valid_indicator df ts).

(** "Exactly one new column per target column". *)
Definition with_indicators (missing_indicator valid_indicator : cell)
           (df : DataFrame) (targets : list label) : DataFrame :=
  extended missing_indicator valid_indicator df (first_occurrences [] targets).

(** The targets are columns of the table and none of the indicator names is
    taken; the table has distinct labels and is rectangular. *)
Definition indicator_ready (df : DataFrame) (targets : list label) : Prop :=
  NoDup (columns df)
  /\ rectangular df
  /\ forall t, In t targets ->
               In t (columns df) /\ ~ In (Clean.missing_name t) (columns df).

(** "Non-missing entries are unchanged": an entry is kept when it was
    missing or is what it was. *)
Definition entry_kept (x y : cell) : Prop := x = None \/ y = x.

Definition keeps_present (df df' : DataFrame) : Prop :=
  index df' = index df
  /\ Forall2 (fun c c' => fst c' = fst c /\ Forall2 entry_kept (snd c) (snd c'))
             (data df) (data df').

Definition keeps_present_opt (o o' : option DataFrame) : Prop :=
  match o, o' with
  | Some df, Some df' => keeps_present df df'
  | None, None => True
  | _, _ => False
  end.

(** "The number of positions where the prediction equals the label". *)
Fixpoint correct_positions (y_true y_pred : list Z) : nat :=
  match y_true, y_pred with
  | a :: y_true', b :: y_pred' =>
      ((if Z.eqb a b then 1 else 0) + correct_positions y_true' y_pred')%nat
  | _, _ => 0%nat
  end.

(** "... divided by the total number of positions". *)
Definition fraction_correct (y_true y_pred : list Z) : Q :=
  inject_Z (Z.of_nat (correct_positions y_true y_pred))
  / inject_Z (Z.of_nat (List.length y_true)).

End Spec.

(** ** Further table operations *)

Module PandasRows.
Import Pandas.

Definition present (c : cell) : bool :=
  match c with Some _ => true | None => false end.

(** [df.dropna(axis=0, subset=labels)]: [KeyError] when a label names no
    column; otherwise the rows that hold an entry in every column carrying
    one of the labels are kept. *)
Definition dropna_subset (df : DataFrame) (subset : list label) : outcome DataFrame :=
  match filter (fun l => negb (existsb (String.eqb l) (columns df))) subset with
  | l :: _ => Raised (KeyError l)
  | [] =>
      let checked := filter (fun c => existsb (String.eqb (fst c)) subset) (data df) in
      let keep := map (fun i => forallb (fun c => present (nth i (snd c) None)) checked)
                      (seq 0 (shape0 df)) in
      Returned (mkFrame (mask_select (index df) keep)
                        (map (fun c => (fst c, mask_select (snd c) keep)) (data df)))
  end.

(** [df[l] = df[l].method(...)]: what the method made of the columns
    carrying the label is written back to them, in order. *)
Fixpoint write_back (d : list (label * column)) (l : label) (new : list column)
  : list (label * column) :=
  match d with
  | [] => []
  | c :: d' =>
      if String.eqb (fst c) l
      then match new with
           | n :: new' => (fst c, n) :: write_back d' l new'
           | [] => c :: write_back d' l []
           end
      else c :: write_back d' l new
  end.

End PandasRows.

(** ** The remaining methods of [Clean] that stand on their own *)

Module CleanRest.
Import Pandas PandasRows Clean.
Local Open Scope py_scope.

Section Selector.

Variable _input_columns : list label -> list label -> list label.

(** [replace_missing_remove_row], clean.py lines 389-396. *)
Definition replace_missing_remove_row (list_args list_of_cols : list label) : M unit :=
  let list_of_cols := _input_columns list_args list_of_cols in
  train <- get x_train ;;
  train' <- lift (dropna_subset train list_of_cols) ;;
  set_x_train train' ;;;
  test <- get x_test ;;
  match test with
  | Some te =>
      te' <- lift (dropna_subset te list_of_cols) ;;
      set_x_test (Some te')
  | None => ret tt
  end.

(** What [drop_duplicate_rows] can raise: an exception of the library, or
    the [AttributeError] of calling a method on [None]. *)
Inductive raised : Type :=
| Base (e : exn)
| AttributeError (msg : string).

(** [DataFrame.drop_duplicates(subset)] on rows is a parameter. *)
Variable drop_duplicates : DataFrame -> list label -> outcome DataFrame.

(** [drop_duplicate_rows], lines 427-434.  The guard reads [x_test], the
    statement under it reads and assigns [test_data]. *)
Definition drop_duplicate_rows (list_args list_of_cols : list label) (s : obj)
  : (unit + raised) * obj :=
  let list_of_cols := _input_columns list_args list_of_cols in
  match drop_duplicates (x_train s) list_of_cols with
  | Raised e => (inr (Base e), s)
  | Returned train' =>
      let s1 := mkObj (train_data s) (test_data s) train' (x_test s) (stdout s) (warned s) in
      match x_test s1 with
      | None => (inl tt, s1)
      | Some _ =>
          match test_data s1 with
          | None =>
              (inr (AttributeError "'NoneType' object has no attribute 'drop_duplicates'"), s1)
          | Some test =>
              match drop_duplicates test list_of_cols with
              | Raised e => (inr (Base e), s1)
              | Returned test' =>
                  (inl tt,
                   mkObj (train_data s1) (Some test') (x_train s1) (x_test s1)
                         (stdout s1) (warned s1))
              end
          end
      end
  end.

Definition interpolate_warning : string :=
  "If test data does not come from the same distribution of the training data, it may lead to erroneous results.".

(** [interpolate(method=m, **kw)] of a column is a parameter; it may
    raise. *)
Variable interpolate : kwvalue -> kwargs -> column -> outcome column.

(** [df[col] = df[col].interpolate(method=m, **kw)]: [KeyError] when no
    column carries the label; otherwise every column carrying it is
    interpolated and written back. *)
Definition interpolate_column (df : DataFrame) (col : label) (method : kwvalue)
           (inter_kwargs : kwargs) : outcome DataFrame :=
  match lookup_all col (data df) with
  | [] => Raised (KeyError col)
  | found =>
      obind (omap (fun c => interpolate method inter_kwargs (snd c)) found) (fun new =>
      Returned (mkFrame (index df) (write_back (data df) col new)))
  end.

(** The loop of [replace_missing_interpolate], lines 613-624. *)
Fixpoint interpolate_loop (cols : list label) (method : kwvalue) (inter_kwargs : kwargs)
  : M unit :=
  match cols with
  | [] => ret tt
  | col :: rest =>
      train <- get x_train ;;
      train' <- lift (interpolate_column train col method inter_kwargs) ;;
      set_x_train train' ;;;
      test <- get x_test ;;
      match test with
      | Some te =>
          warn interpolate_warning ;;;
          te' <- lift (interpolate_column te col method inter_kwargs) ;;
          set_x_test (Some te')
      | None => ret tt
      end ;;;
      interpolate_loop rest method inter_kwargs
  end.

(** [replace_missing_interpolate], lines 610-626.  [method] is a named
    parameter of the method; line 610 rebinds the name from
    [inter_kwargs]. *)
Definition replace_missing_interpolate (list_args list_of_cols : list label)
           (method : kwvalue) (inter_kwargs : kwargs) : M unit :=
  let popped := pop inter_kwargs "method" (KStr "linear") in
  let method := fst popped in
  let inter_kwargs := snd popped in
  let list_of_cols := _input_columns list_args list_of_cols in
  interpolate_loop list_of_cols method inter_kwargs.

End Selector.

End CleanRest.

(** ** The constructor of [ClassificationModelAnalysis] *)

Module AnalysisInit.

(** Insertion into an ascending list without repetitions. *)
Fixpoint insert_sorted (z : Z) (l : list Z) : list Z :=
  match l with
  | [] => [z]
  | x :: l' =>
      match Z.compare z x with
      | Lt => z :: l
      | Eq => l
      | Gt => x :: insert_sorted z l'
      end
  end.

(** [numpy.unique]: the distinct values in ascending order. *)
Definition np_unique (l : list Z) : list Z := fold_right insert_sorted [] l.

(** [numpy.unique] first gathers the labels in an array of 64-bit integers
    or, when the labels come in integer types of different kinds, of
    doubles.  A label of magnitude at most [2^53] is held exactly either
    way; beyond that two labels may become one. *)
Definition exact_label (z : Z) : Prop := (- 2 ^ 53 <= z <= 2 ^ 53)%Z.

(** Line 45: [len(np.unique(list(self.y_train) + list(self.y_test))) > 2]. *)
Definition multiclass (y_train y_test : list Z) : bool :=
  (2 <? List.length (np_unique (y_train ++ y_test)))%nat.

Section Classes.

(** [str] of a label. *)
Variable str : Z -> string.

(** Lines 47-49. *)
Definition classes (y_train y_test : list Z) : list string :=
  map str (np_unique (y_train ++ y_test)).

End Classes.

End AnalysisInit.

(** ** [nyx.config.user_config] *)

Module UserConfig.

Local Unset Elimination Schemes.

(** The values a loaded configuration holds. *)
Inductive yaml : Type :=
| YNull
| YBool (b : bool)
| YInt (z : Z)
| YFloat (q : Q)
| YStr (s : string)
| YSeq (l : list yaml)
| YMap (m : list (string * yaml)).

Local Set Elimination Schemes.

(** Truth value of a Python object. *)
Definition truthy (y : yaml) : bool :=
  match y with
  | YNull => false
  | YBool b => b
  | YInt z => negb (Z.eqb z 0)
  | YFloat q => negb (Qeq_bool q 0)
  | YStr s => negb (String.eqb s "")
  | YSeq l => match l with [] => false | _ => true end
  | YMap m => match m with [] => false | _ => true end
  end.

(** [y[key]] with a string key. *)
Definition subscript (y : yaml) (key : string) : outcome yaml :=
  match y with
  | YMap m =>
      match find (fun p => String.eqb (fst p) key) m with
      | Some p => Returned (snd p)
      | None => Raised (KeyError key)
      end
  | YStr _ => Raised (TypeError "string indices must be integers")
  | YSeq _ => Raised (TypeError "list indices must be integers or slices, not str")
  | _ => Raised (TypeError "object is not subscriptable")
  end.

Section MakeDir.

(** [nyx.util._make_dir] acts on the file system; both are parameters. *)
Variable fs : Type.
Variable _make_dir : yaml -> fs -> outcome unit * fs.

(** [_make_image_dir], lines 16-25.  The module neither defines nor imports
    [DEFAULT_IMAGE_DIR], so reading it raises [NameError]. *)
Definition _make_image_dir (cfg : yaml) (w : fs) : outcome yaml * fs :=
  match obind (subscript cfg "images") (fun i => subscript i "dir") with
  | Raised e => (Raised e, w)
  | Returned d =>
      if negb (truthy d)
      then (Raised (NameError "DEFAULT_IMAGE_DIR"), w)
      else
        match obind (subscript cfg "images") (fun i => subscript i "dir") with
        | Raised e => (Raised e, w)
        | Returned image_dir =>
            match _make_dir image_dir w with
            | (Raised e, w') => (Raised e, w')
            | (Returned _, w') => (Returned image_dir, w')
            end
        end
  end.

End MakeDir.

End UserConfig.

(** ** Indicators in place of their targets *)

Module SpecReplace.
Import Pandas.


End SpecReplace.

(** * Properties *)

(** ** Selecting columns by label *)

Module SelectFacts.
Import Pandas.

Lemma lookup_all_labels l d c : In c (lookup_all l d) -> fst c = l.
Proof.
  unfold lookup_all. intro H. apply filter_In in H. destruct H as [_ H].
  now apply String.eqb_eq in H.
Qed.

Lemma by_label_notin {B} l (d : list (label * B)) :
  ~ In l (map fst d) -> filter (fun p => String.eqb (fst p) l) d = [].
Proof.
  induction d as [|c d IH]; simpl; intro H; [reflexivity|].
  destruct (_ =? l)%string eqn:E.
  - exfalso. apply H. left. now apply String.eqb_eq.
  - apply IH. intro Hin. apply H. now right.
Qed.

(** With distinct labels a label finds exactly its entry. *)
Lemma by_label_unique {B} (pre : list (label * B)) c post :
  NoDup (map fst (pre ++ c :: post)) ->
  filter (fun p => String.eqb (fst p) (fst c)) (pre ++ c :: post) = [c].
Proof.
  intro H. rewrite filter_app. simpl. rewrite String.eqb_refl.
  rewrite map_app in H. simpl in H.
  apply NoDup_remove_2 in H.
  rewrite !by_label_notin; [reflexivity| |]; intro Hin; apply H, in_or_app; auto.
Qed.

Lemma lookup_all_notin l d : ~ In l (map fst d) -> lookup_all l d = [].
Proof. apply by_label_notin. Qed.

Lemma lookup_all_app l d1 d2 : lookup_all l (d1 ++ d2) = lookup_all l d1 ++ lookup_all l d2.
Proof. unfold lookup_all. apply filter_app. Qed.

Lemma lookup_all_unique pre c post :
  NoDup (map fst (pre ++ c :: post)) ->
  lookup_all (fst c) (pre ++ c :: post) = [c].
Proof. apply by_label_unique. Qed.

(** Every selected column carries a requested label, and every requested
    label is served. *)
Lemma select_labels d : forall labels r,
  select d labels = Returned r ->
  forall l, In l (map fst r) <-> In l labels.
Proof.
  induction labels as [|l0 ls IH]; simpl; intros r H l.
  - inversion H; subst. simpl. tauto.
  - destruct (lookup_all l0 d) as [|c0 found] eqn:E; [discriminate|].
    destruct (select d ls) as [r'|] eqn:E'; simpl in H; [|discriminate].
    inversion H; subst; clear H.
    change (In l (map fst ((c0 :: found) ++ r')) <-> l0 = l \/ In l ls).
    rewrite map_app, in_app_iff, (IH r' eq_refl l).
    split.
    + intros [Hin|Hin]; [left|now right].
      apply in_map_iff in Hin. destruct Hin as [c [Hc Hin]].
      rewrite <- E in Hin. apply lookup_all_labels in Hin. congruence.
    + intros [->|Hin]; [left|now right].
      apply in_map_iff. exists c0. split; [|now left].
      apply (lookup_all_labels l d). rewrite E. now left.
Qed.

(** Selection succeeds when every label names a column. *)
Lemma select_total d : forall labels,
  (forall l, In l labels -> In l (map fst d)) ->
  exists r, select d labels = Returned r.
Proof.
  induction labels as [|l0 ls IH]; simpl; intro H; [eauto|].
  destruct IH as [r Hr]; [intros; apply H; now right|].
  rewrite Hr. simpl.
  destruct (lookup_all l0 d) as [|c0 found] eqn:E; [|eauto].
  exfalso. assert (Hin : In l0 (map fst d)) by (apply H; now left).
  apply in_map_iff in Hin. destruct Hin as [c [Hc Hin]].
  assert (In c (lookup_all l0 d)).
  { unfold lookup_all. apply filter_In. split; [assumption|]. now apply String.eqb_eq. }
  rewrite E in *. contradiction.
Qed.

(** Selection raises nothing but [KeyError]. *)
Lemma select_raises d : forall labels e,
  select d labels = Raised e -> exists k, e = KeyError k.
Proof.
  induction labels as [|l0 ls IH]; simpl; intros e H; [discriminate|].
  destruct (lookup_all l0 d) as [|c0 found].
  - inversion H. eauto.
  - destruct (select d ls) as [r'|e'] eqn:E'; simpl in H; [discriminate|].
    inversion H; subst. eauto.
Qed.

(** With distinct labels the selected columns are labelled exactly as
    requested, in the requested order. *)
Lemma select_columns d : NoDup (map fst d) -> forall labels r,
  select d labels = Returned r -> map fst r = labels.
Proof.
  intros ND. induction labels as [|l0 ls IH]; simpl; intros r H.
  - now inversion H.
  - destruct (lookup_all l0 d) as [|c0 found] eqn:E; [discriminate|].
    destruct (select d ls) as [r'|] eqn:E'; simpl in H; [|discriminate].
    inversion H; subst; clear H.
    assert (Hc0 : In c0 d).
    { assert (In c0 (lookup_all l0 d)) by (rewrite E; now left).
      unfold lookup_all in *. now apply filter_In in H. }
    apply in_split in Hc0. destruct Hc0 as [pre [post ->]].
    assert (fst c0 = l0) by (apply (lookup_all_labels l0 (pre ++ c0 :: post)); rewrite E; now left).
    subst l0. rewrite (lookup_all_unique _ _ _ ND) in E. inversion E; subst.
    simpl. f_equal. now apply IH.
Qed.

(** Selecting, from a table with distinct labels, the labels of a filtered
    part of it gives that part. *)
Lemma select_filter (P : label * column -> bool) : forall post pre,
  NoDup (map fst (pre ++ post)) ->
  select (pre ++ post) (map fst (filter P post)) = Returned (filter P post).
Proof.
  induction post as [|c post IH]; intros pre ND; simpl; [reflexivity|].
  assert (IH' := IH (pre ++ [c])). rewrite <- app_assoc in IH'. simpl in IH'.
  destruct (P c); simpl.
  - rewrite (lookup_all_unique _ _ _ ND). rewrite (IH' ND). reflexivity.
  - apply IH', ND.
Qed.

Lemma mask_select_map {A B} (f : A -> B) : forall (l : list A) m,
  mask_select (map f l) m = map f (mask_select l m).
Proof.
  induction l as [|a l IH]; intros [|b m]; simpl; try reflexivity.
  destruct b; simpl; now rewrite IH.
Qed.

Lemma mask_select_filter {A} (p : A -> bool) : forall l : list A,
  mask_select l (map p l) = filter p l.
Proof.
  induction l as [|a l IH]; simpl; [reflexivity|].
  destruct (p a); now rewrite IH.
Qed.

End SelectFacts.

(** ** The drop operations of [Clean] *)

Module DropFacts.
Import Pandas Clean SelectFacts.
Local Open Scope py_scope.

Lemma Qltb_lt a b : Qltb a b = true <-> a < b.
Proof.
  unfold Qltb. rewrite negb_true_iff. split; intro H.
  - apply Qnot_le_lt. intro Hle. apply Qle_bool_iff in Hle. congruence.
  - destruct (Qle_bool b a) eqn:E; [|reflexivity].
    apply Qle_bool_iff in E. exfalso. now apply (Qlt_not_le a b).
Qed.

Lemma out_of_range threshold :
  Qltb 1 threshold || Qltb threshold 0 = true <-> (threshold < 0 \/ 1 < threshold).
Proof. rewrite orb_true_iff, !Qltb_lt. tauto. Qed.

Lemma in_range threshold :
  0 <= threshold <= 1 -> Qltb 1 threshold || Qltb threshold 0 = false.
Proof.
  intros [H0 H1]. destruct (Qltb 1 threshold || Qltb threshold 0) eqn:E; [|reflexivity].
  apply out_of_range in E. destruct E as [E|E]; exfalso.
  - now apply (Qlt_not_le threshold 0).
  - now apply (Qlt_not_le 1 threshold).
Qed.

Lemma getitem_list_raises df labels e :
  getitem_list df labels = Raised e -> exists k, e = KeyError k.
Proof.
  unfold getitem_list. destruct (select (data df) labels) eqn:E; simpl; [discriminate|].
  intro H. inversion H; subst. eapply select_raises; eauto.
Qed.

(** C2. A threshold below 0 or above 1 makes both threshold drops raise
    [ValueError] with the stored tables (the whole object) left as they
    were; a threshold within [0,1] never makes them raise [ValueError]. *)
Theorem threshold_validation (threshold : Q) (s : obj) :
  (threshold < 0 \/ 1 < threshold ->
     drop_column_missing_threshold threshold s = (Raised (ValueError threshold_message), s)
     /\ drop_rows_missing_threshold threshold s = (Raised (ValueError threshold_message), s))
  /\ (0 <= threshold <= 1 ->
      forall msg,
        fst (drop_column_missing_threshold threshold s) <> Raised (ValueError msg)
        /\ fst (drop_rows_missing_threshold threshold s) <> Raised (ValueError msg)).
Proof.
  split.
  - intro H. apply out_of_range in H.
    unfold drop_column_missing_threshold, drop_rows_missing_threshold.
    rewrite H. split; reflexivity.
  - intros H msg. apply in_range in H.
    unfold drop_column_missing_threshold, drop_rows_missing_threshold.
    rewrite H. split.
    + run.
      destruct (getitem_list (train_data s) _) as [tr|e] eqn:E; simpl.
      * destruct (test_data s) as [te|]; simpl; [|discriminate].
        destruct (getitem_list te _) as [te'|e] eqn:E'; simpl; [discriminate|].
        apply getitem_list_raises in E'. destruct E' as [k ->]. discriminate.
      * apply getitem_list_raises in E. destruct E as [k ->]. discriminate.
    + run. destruct (test_data s); simpl; discriminate.
Qed.

Lemma threshold_validation_witness :
  (drop_column_missing_threshold (3 # 2) (Examples.only_train Examples.graded)
   = (Raised (ValueError threshold_message), Examples.only_train Examples.graded)
   /\ drop_rows_missing_threshold (3 # 2) (Examples.only_train Examples.graded)
      = (Raised (ValueError threshold_message), Examples.only_train Examples.graded))
  /\ (fst (drop_column_missing_threshold (1 # 2) (Examples.only_train Examples.graded))
      <> Raised (ValueError threshold_message)
      /\ fst (drop_rows_missing_threshold (1 # 2) (Examples.only_train Examples.graded))
         <> Raised (ValueError threshold_message)).
Proof.
  split.
  - apply (threshold_validation (3 # 2) (Examples.only_train Examples.graded)).
    right. reflexivity.
  - apply (threshold_validation (1 # 2) (Examples.only_train Examples.graded)).
    split; discriminate.
Defined.

(** *** Threshold drops *)

(** C3. [drop_rows_missing_threshold] keeps a row by its number of present
    entries, not by its fraction of missing ones: on the three-row table
    [graded], threshold 1 drops the half-missing row (index 1) although its
    fraction 1/2 is below the threshold, and threshold 1/2 keeps it although
    its fraction reaches the threshold. *)
Theorem rows_threshold_counts_present :
  let s := Examples.only_train Examples.graded in
  Spec.fraction_missing (row Examples.graded 1) = Some (1 # 2)
  /\ fst (drop_rows_missing_threshold 1 s) = Returned tt
  /\ index (train_data (snd (drop_rows_missing_threshold 1 s))) = [0]%Z
  /\ index (Spec.drop_rows Examples.graded 1) = [0; 1]%Z
  /\ index (train_data (snd (drop_rows_missing_threshold (1 # 2) s))) = [0; 1]%Z
  /\ index (Spec.drop_rows Examples.graded (1 # 2)) = [0]%Z.
Proof. vm_compute. repeat split. Qed.

(** *** Duplicate columns *)

(** C1. [drop_duplicate_columns] reduces each table on its own: from train
    and test tables over the same columns [a], [b] it returns with the train
    table holding [a] and the test table holding [a] and [b]. *)
Theorem drop_duplicate_columns_splits_schema :
  let s := Examples.train_test Examples.twin_train Examples.twin_test in
  let r := drop_duplicate_columns s in
  Some (columns (train_data s)) = option_map columns (test_data s)
  /\ fst r = Returned tt
  /\ columns (train_data (snd r)) = ["a"%string]
  /\ option_map columns (test_data (snd r)) = Some ["a"%string; "b"%string].
Proof. vm_compute. repeat split. Qed.

(** The other column drops select, in both tables, the labels kept for the
    training table: when they return, the two tables carry the same set of
    labels. *)
Lemma select_pair_columns train te keep tr' te' :
  getitem_list train keep = Returned tr' ->
  getitem_list te keep = Returned te' ->
  forall l, In l (columns tr') <-> In l (columns te').
Proof.
  unfold getitem_list, columns. intros H1 H2 l.
  destruct (select (data train) keep) as [r1|] eqn:E1; simpl in H1; [|discriminate].
  destruct (select (data te) keep) as [r2|] eqn:E2; simpl in H2; [|discriminate].
  inversion H1; inversion H2; subst; simpl.
  rewrite (select_labels _ _ E1 l), (select_labels _ _ E2 l). tauto.
Qed.

Lemma drop_column_missing_threshold_shares threshold s te :
  test_data s = Some te ->
  fst (drop_column_missing_threshold threshold s) = Returned tt ->
  exists te', test_data (snd (drop_column_missing_threshold threshold s)) = Some te'
              /\ forall l,
                   In l (columns (train_data (snd (drop_column_missing_threshold threshold s))))
                   <-> In l (columns te').
Proof.
  intros Ht. unfold drop_column_missing_threshold.
  destruct (Qltb 1 threshold || Qltb threshold 0); [discriminate|]. run.
  destruct (getitem_list (train_data s) _) as [tr'|] eqn:E1; simpl; [|discriminate].
  rewrite Ht.
  destruct (getitem_list te _) as [te'|] eqn:E2; simpl; [|discriminate].
  intros _. exists te'. split; [reflexivity|].
  eapply select_pair_columns; [exact E1 | exact E2].
Qed.

Lemma drop_unique_columns_shares s te :
  test_data s = Some te ->
  fst (drop_unique_columns s) = Returned tt ->
  exists te', test_data (snd (drop_unique_columns s)) = Some te'
              /\ forall l, In l (columns (train_data (snd (drop_unique_columns s))))
                           <-> In l (columns te').
Proof.
  intros Ht. unfold drop_unique_columns. run.
  destruct (ofilter _ _) as [keep|]; simpl; [|discriminate].
  destruct (getitem_list (train_data s) keep) as [tr'|] eqn:E1; simpl; [|discriminate].
  rewrite Ht.
  destruct (getitem_list te keep) as [te'|] eqn:E2; simpl; [|discriminate].
  intros _. exists te'. split; [reflexivity|].
  eapply select_pair_columns; [exact E1 | exact E2].
Qed.

(** *** Constant columns *)

(** The loop never raises: it appends the columns whose test returns true,
    prints a line for each column whose test raises, and touches nothing
    else. *)
Lemma constant_loop_run : forall cols keep s,
  constant_loop cols keep s
  = (Returned (keep ++ filter (fun c => returned_true (nunique_not_in_0_1 (train_data s) c))
                              cols),
     mkObj (train_data s) (test_data s) (x_train s) (x_test s)
           (stdout s ++ map could_not_be_processed
                            (filter (fun c => negb (returned (nunique_not_in_0_1 (train_data s) c)))
                                    cols))
           (warned s)).
Proof.
  induction cols as [|col cols IH]; intros keep s; simpl.
  - rewrite !app_nil_r. now destruct s.
  - run. destruct (nunique_not_in_0_1 (train_data s) col) as [[|]|e]; simpl;
      rewrite IH; simpl; rewrite <- ?app_assoc; reflexivity.
Qed.

(** [drop_constant_columns] in closed form. *)
Lemma drop_constant_columns_run s :
  drop_constant_columns s
  = let keep := filter (fun c => returned_true (nunique_not_in_0_1 (train_data s) c))
                       (columns (train_data s)) in
    let out := stdout s ++ map could_not_be_processed
                 (filter (fun c => negb (returned (nunique_not_in_0_1 (train_data s) c)))
                         (columns (train_data s))) in
    match getitem_list (train_data s) keep with
    | Raised e =>
        (Raised e, mkObj (train_data s) (test_data s) (x_train s) (x_test s) out (warned s))
    | Returned tr' =>
        match test_data s with
        | None => (Returned tt, mkObj tr' None (x_train s) (x_test s) out (warned s))
        | Some te =>
            match getitem_list te keep with
            | Returned te' =>
                (Returned tt, mkObj tr' (Some te') (x_train s) (x_test s) out (warned s))
            | Raised e =>
                (Raised e, mkObj tr' (Some te) (x_train s) (x_test s) out (warned s))
            end
        end
    end.
Proof.
  unfold drop_constant_columns.
  unfold bind at 1. unfold get at 1.
  unfold bind at 1. rewrite constant_loop_run. run.
  destruct (getitem_list (train_data s) _) as [tr'|e]; simpl; [|reflexivity].
  destruct (test_data s) as [te|]; simpl; [|reflexivity].
  destruct (getitem_list te _); reflexivity.
Qed.

(** What [drop_constant_columns] leaves in the training table: the selection
    of the labels the loop kept. *)
Lemma drop_constant_columns_train s :
  exists r,
    select (data (train_data s))
           (filter (fun c => returned_true (nunique_not_in_0_1 (train_data s) c))
                   (columns (train_data s))) = Returned r
    /\ train_data (snd (drop_constant_columns s)) = mkFrame (index (train_data s)) r
    /\ stdout (snd (drop_constant_columns s))
       = stdout s ++ map could_not_be_processed
                         (filter (fun c => negb (returned (nunique_not_in_0_1 (train_data s) c)))
                                 (columns (train_data s)))
    /\ (test_data s = None -> fst (drop_constant_columns s) = Returned tt)
    /\ (forall e, fst (drop_constant_columns s) = Raised e -> exists k, e = KeyError k).
Proof.
  destruct (@select_total (data (train_data s))
              (filter (fun c => returned_true (nunique_not_in_0_1 (train_data s) c))
                      (columns (train_data s)))) as [r Hr].
  { intros l Hl. apply filter_In in Hl. apply Hl. }
  exists r. split; [exact Hr|].
  assert (Hg : getitem_list (train_data s)
                 (filter (fun c => returned_true (nunique_not_in_0_1 (train_data s) c))
                         (columns (train_data s)))
               = Returned (mkFrame (index (train_data s)) r)).
  { unfold getitem_list. now rewrite Hr. }
  rewrite drop_constant_columns_run. cbv zeta. rewrite Hg.
  destruct (test_data s) as [te|]; simpl.
  - destruct (getitem_list te _) as [r'|e] eqn:E; simpl;
      (split; [reflexivity|split; [reflexivity|split; [discriminate|]]]);
      intros e' He'; [discriminate|].
    inversion He'; subst. eapply getitem_list_raises; eauto.
  - split; [reflexivity|split; [reflexivity|split; [reflexivity|discriminate]]].
Qed.

Lemma drop_constant_columns_shares s te :
  test_data s = Some te ->
  fst (drop_constant_columns s) = Returned tt ->
  exists te', test_data (snd (drop_constant_columns s)) = Some te'
              /\ forall l, In l (columns (train_data (snd (drop_constant_columns s))))
                           <-> In l (columns te').
Proof.
  intros Ht.
  rewrite drop_constant_columns_run. cbv zeta.
  destruct (getitem_list (train_data s) _) as [tr'|] eqn:E1; simpl; [|discriminate].
  rewrite Ht.
  destruct (getitem_list te _) as [te'|] eqn:E2; simpl; [|discriminate].
  intros _. exists te'. split; [reflexivity|].
  eapply select_pair_columns; [exact E1 | exact E2].
Qed.

(** C8. When the unique-count test of a column raises, that column is not
    among the columns left in the training table, its line is on the output,
    and the loop goes on: every column whose test returns true is still kept,
    the method returns when there is no test table, and the only thing it can
    raise is the [KeyError] of selecting from the test table. *)
Theorem failing_column_is_skipped (s : obj) (col : label) (e : exn) :
  In col (columns (train_data s)) ->
  nunique_not_in_0_1 (train_data s) col = Raised e ->
  let r := drop_constant_columns s in
  ~ In col (columns (train_data (snd r)))
  /\ In (could_not_be_processed col) (stdout (snd r))
  /\ (forall c, In c (columns (train_data s)) ->
                nunique_not_in_0_1 (train_data s) c = Returned true ->
                In c (columns (train_data (snd r))))
  /\ (test_data s = None -> fst r = Returned tt)
  /\ (forall e', fst r = Raised e' -> exists k, e' = KeyError k).
Proof.
  intros Hcol He r. subst r.
  destruct (drop_constant_columns_train s) as [sel [Hsel [Htrain [Hout [Hret Hraise]]]]].
  rewrite Htrain, Hout. unfold columns at 1 3. simpl.
  repeat split; [| | |exact Hret|exact Hraise].
  - intro Hin. apply (select_labels _ _ Hsel) in Hin.
    apply filter_In in Hin. destruct Hin as [_ Hin]. rewrite He in Hin. discriminate.
  - apply in_or_app. right. apply in_map. apply filter_In. split; [exact Hcol|].
    now rewrite He.
  - intros c Hc Htrue. apply (select_labels _ _ Hsel).
    apply filter_In. split; [exact Hc|]. now rewrite Htrue.
Qed.

Lemma failing_column_is_skipped_witness :
  let r := drop_constant_columns (Examples.only_train Examples.repeated_label) in
  ~ In "a"%string (columns (train_data (snd r)))
  /\ In (could_not_be_processed "a"%string) (stdout (snd r))
  /\ In "b"%string (columns (train_data (snd r)))
  /\ fst r = Returned tt.
Proof.
  destruct (@failing_column_is_skipped (Examples.only_train Examples.repeated_label)
              "a"%string ambiguous) as [H1 [H2 [H3 [H4 _]]]].
  - simpl. auto.
  - reflexivity.
  - intro r. split; [exact H1|split; [exact H2|split; [|apply H4; reflexivity]]].
    apply H3; [simpl; auto | reflexivity].
Defined.

Lemma nunique_hashable (d : list (label * column)) :
  forallb (fun c : label * column => forallb cell_hashable (snd c)) d = true ->
  omap (fun c => obind (Series_nunique (snd c)) (fun n => Returned (fst c, n))) d
  = Returned (map (fun c => (fst c, Spec.unique_count (snd c))) d).
Proof.
  induction d as [|c d IH]; simpl; intro H; [reflexivity|].
  apply andb_true_iff in H. destruct H as [Hc Hd].
  rewrite (IH Hd). unfold Series_nunique. rewrite Hc. reflexivity.
Qed.

(** On a table of hashable entries with distinct labels the test of a column
    says whether its unique count is neither 0 nor 1. *)
Lemma nunique_not_in_0_1_counts df c :
  NoDup (columns df) ->
  forallb (fun c : label * column => forallb cell_hashable (snd c)) (data df) = true ->
  In c (data df) ->
  nunique_not_in_0_1 df (fst c) = Returned (negb (Spec.constant (snd c))).
Proof.
  intros ND Hh Hin. unfold nunique_not_in_0_1, nunique.
  rewrite (nunique_hashable _ Hh). simpl.
  apply in_split in Hin. destruct Hin as [pre [post E]].
  unfold columns in ND. rewrite E in *. unfold series_getitem.
  rewrite map_app. simpl.
  change (fst c) with (fst (fst c, Spec.unique_count (snd c))) at 1.
  rewrite by_label_unique; [reflexivity|].
  rewrite map_app. simpl. rewrite !map_map. simpl.
  rewrite map_app in ND. exact ND.
Qed.

Lemma filter_map_fst {B} (f : label -> bool) (P : label * B -> bool) : forall d,
  (forall c, In c d -> f (fst c) = P c) ->
  filter f (map fst d) = map fst (filter P d).
Proof.
  induction d as [|c d IH]; simpl; intro H; [reflexivity|].
  rewrite (H c (or_introl eq_refl)).
  destruct (P c); simpl; rewrite IH; auto.
Qed.

(** C4, amended. On a training table with distinct column labels and no
    unhashable entry, [drop_constant_columns] leaves exactly the columns
    whose count of unique non-missing values is neither 0 nor 1, in their
    original order. *)
Theorem drop_constant_columns_exact (s : obj) :
  NoDup (columns (train_data s)) ->
  forallb (fun c : label * column => forallb cell_hashable (snd c)) (data (train_data s)) = true ->
  train_data (snd (drop_constant_columns s)) = Spec.drop_constant_columns (train_data s).
Proof.
  intros ND Hh.
  destruct (drop_constant_columns_train s) as [r [Hsel [Htrain _]]].
  rewrite Htrain. unfold Spec.drop_constant_columns. f_equal.
  unfold columns in Hsel.
  rewrite (filter_map_fst _ (fun c => negb (Spec.constant (snd c)))) in Hsel.
  - rewrite (select_filter _ (data (train_data s)) [] ND) in Hsel. now inversion Hsel.
  - intros c Hc. rewrite (nunique_not_in_0_1_counts _ _ ND Hh Hc).
    simpl. now destruct (Spec.constant (snd c)).
Qed.

Lemma drop_constant_columns_exact_witness :
  train_data (snd (drop_constant_columns (Examples.only_train Examples.assorted)))
  = mkFrame [0; 1; 2]%Z
            [("u"%string, [Examples.int 1; Examples.int 2; Examples.int 3]);
             ("v"%string, [Examples.str "x"; Examples.str "y"; Examples.str "x"])].
Proof.
  rewrite (@drop_constant_columns_exact (Examples.only_train Examples.assorted)).
  - reflexivity.
  - simpl. repeat constructor; simpl; intuition discriminate.
  - reflexivity.
Defined.

(** C4 as stated fails: in [with_lists] column [a] has two unique values and
    column [b] holds lists; counting raises at every column, so the method
    leaves no column at all, where the stated rule keeps both. *)
Lemma drop_constant_columns_drops_varied :
  let s := Examples.only_train Examples.with_lists in
  Spec.unique_count [Examples.int 1; Examples.int 2] = 2%nat
  /\ columns (Spec.drop_constant_columns (train_data s)) = ["a"%string; "b"%string]
  /\ fst (drop_constant_columns s) = Returned tt
  /\ columns (train_data (snd (drop_constant_columns s))) = []
  /\ train_data (snd (drop_constant_columns s)) <> Spec.drop_constant_columns (train_data s).
Proof.
  vm_compute. repeat split. discriminate.
Qed.

End DropFacts.

(** ** Missing-value indicators *)

Module IndicatorFacts.
Import Pandas Clean SelectFacts.
Local Open Scope py_scope.

Lemma string_length_append (a b : string) :
  String.length (a ++ b) = (String.length a + String.length b)%nat.
Proof. induction a as [|c a IH]; simpl; [reflexivity|now rewrite IH]. Qed.

Lemma append_inj_l (s : string) : forall a b : string,
  (a ++ s)%string = (b ++ s)%string -> a = b.
Proof.
  induction a as [|c a IH]; intros [|c' b] H; simpl in H.
  - reflexivity.
  - apply (f_equal String.length) in H. simpl in H.
    rewrite string_length_append in H. lia.
  - apply (f_equal String.length) in H. simpl in H.
    rewrite string_length_append in H. lia.
  - inversion H; subst. f_equal. now apply IH.
Qed.

Lemma missing_name_inj a b : missing_name a = missing_name b -> a = b.
Proof. apply append_inj_l. Qed.

Lemma indicator_flag mi vi c : indicator mi vi c = map (Spec.flag mi vi) c.
Proof.
  unfold indicator, isnull. rewrite map_map. apply map_ext. now intros [v|].
Qed.

Section Step.

Variables (mi vi : cell) (df : DataFrame) (targets : list label).
Hypothesis ready : Spec.indicator_ready df targets.

Lemma target_column t :
  In t targets ->
  exists c0, In c0 (data df) /\ fst c0 = t /\ lookup_all t (data df) = [c0]
             /\ Spec.column_of df t = snd c0.
Proof.
  intro Ht. destruct ready as [ND [_ Hin]].
  destruct (Hin t Ht) as [Hcol _].
  unfold columns in Hcol. apply in_map_iff in Hcol. destruct Hcol as [c0 [E Hc0]].
  exists c0. split; [exact Hc0|]. split; [exact E|].
  destruct (in_split _ _ Hc0) as [pre [post Hd]].
  assert (L : lookup_all t (data df) = [c0]).
  { subst t. unfold columns in ND. rewrite Hd in *. now apply lookup_all_unique. }
  split; [exact L|]. unfold Spec.column_of. now rewrite L.
Qed.

Lemma indicator_labels acc l :
  In l (map fst (Spec.indicator_columns mi vi df acc)) ->
  exists a, In a acc /\ l = missing_name a.
Proof.
  unfold Spec.indicator_columns. rewrite map_map. simpl.
  intro H. apply in_map_iff in H. destruct H as [a [E Ha]]. eauto.
Qed.

Lemma getitem_target acc t :
  In t targets -> incl acc targets ->
  getitem (Spec.extended mi vi df acc) t = Returned (Spec.column_of df t).
Proof.
  intros Ht Hacc. destruct (target_column t Ht) as [c0 [Hc0 [E [L C]]]].
  unfold getitem, Spec.extended. simpl.
  rewrite lookup_all_app, L, lookup_all_notin; [simpl; now rewrite C|].
  intro H. apply indicator_labels in H. destruct H as [a [Ha ->]].
  destruct ready as [_ [_ Hin]].
  destruct (Hin a (Hacc a Ha)) as [_ Hfree]. apply Hfree.
  unfold columns. apply in_map_iff. eauto.
Qed.

Lemma setitem_target acc t :
  In t targets -> incl acc targets ->
  setitem (Spec.extended mi vi df acc) (missing_name t)
          (indicator mi vi (Spec.column_of df t))
  = Returned (Spec.extended mi vi df
                (if in_dec string_dec t acc then acc else acc ++ [t])).
Proof.
  intros Ht Hacc. destruct (target_column t Ht) as [c0 [Hc0 [E [L C]]]].
  destruct ready as [ND [Rect Hin]].
  destruct (Hin t Ht) as [_ Hfree].
  unfold setitem.
  replace (List.length (indicator mi vi (Spec.column_of df t))
           =? shape0 (Spec.extended mi vi df acc))%nat with true.
  2:{ symmetry. apply Nat.eqb_eq. unfold indicator, isnull. rewrite !length_map, C.
      unfold rectangular in Rect. rewrite Forall_forall in Rect. apply (Rect _ Hc0). }
  f_equal. unfold Spec.extended. simpl. f_equal.
  rewrite lookup_all_app, (lookup_all_notin _ _ Hfree). simpl.
  destruct (in_dec string_dec t acc) as [Hmem|Hnew].
  - assert (Hne : lookup_all (missing_name t) (Spec.indicator_columns mi vi df acc) <> []).
    { intro Hnil.
      assert (Hx : In (missing_name t, map (Spec.flag mi vi) (Spec.column_of df t))
                      (lookup_all (missing_name t) (Spec.indicator_columns mi vi df acc))).
      { unfold lookup_all. apply filter_In. split; [|apply String.eqb_refl].
        unfold Spec.indicator_columns. apply in_map_iff. exists t. auto. }
      rewrite Hnil in Hx. contradiction. }
    destruct (lookup_all (missing_name t) (Spec.indicator_columns mi vi df acc));
      [congruence|].
    rewrite <- (map_id (data df ++ Spec.indicator_columns mi vi df acc)) at 2.
    apply map_ext_in. intros c Hc.
    destruct (_ =? _)%string eqn:Eq; [|reflexivity].
    apply String.eqb_eq in Eq. apply in_app_or in Hc. destruct Hc as [Hc|Hc].
    + exfalso. apply Hfree. unfold columns. apply in_map_iff. eauto.
    + unfold Spec.indicator_columns in Hc. apply in_map_iff in Hc.
      destruct Hc as [a [<- Ha]]. simpl in Eq. apply missing_name_inj in Eq. subst a.
      now rewrite indicator_flag.
  - rewrite lookup_all_notin.
    + unfold Spec.indicator_columns. rewrite map_app, app_assoc. simpl.
      now rewrite indicator_flag.
    + intro H. apply indicator_labels in H. destruct H as [a [Ha Eq]].
      apply missing_name_inj in Eq. subst a. contradiction.
Qed.

End Step.

Lemma extended_nil mi vi df : Spec.extended mi vi df [] = df.
Proof. unfold Spec.extended. simpl. rewrite app_nil_r. now destruct df. Qed.

Lemma first_occurrences_step acc col rest :
  acc ++ Spec.first_occurrences acc (col :: rest)
  = (if in_dec string_dec col acc then acc else acc ++ [col])
    ++ Spec.first_occurrences (if in_dec string_dec col acc then acc else acc ++ [col]) rest.
Proof.
  simpl. destruct (in_dec string_dec col acc) as [H|H]; [reflexivity|].
  now rewrite <- app_assoc.
Qed.

(** The loop with [keep_col] left at its default: from tables already
    extended by the indicator columns of [acc] it goes on to extend them by
    those of the remaining targets, once each. *)
Lemma indicator_loop_run mi vi tr te targets :
  Spec.indicator_ready tr targets ->
  (forall t, te = Some t -> Spec.indicator_ready t targets) ->
  forall cols acc s,
    incl cols targets -> incl acc targets ->
    x_train s = Spec.extended mi vi tr acc ->
    x_test s = option_map (fun t => Spec.extended mi vi t acc) te ->
    indicator_loop cols mi vi true s
    = (Returned tt,
       mkObj (train_data s) (test_data s)
             (Spec.extended mi vi tr (acc ++ Spec.first_occurrences acc cols))
             (option_map
                (fun t => Spec.extended mi vi t (acc ++ Spec.first_occurrences acc cols)) te)
             (stdout s) (warned s)).
Proof.
  intros Rtr Rte. induction cols as [|col rest IH]; intros acc s Hcols Hacc Hx Ht.
  - simpl. rewrite app_nil_r. unfold ret. rewrite <- Hx, <- Ht. now destruct s.
  - assert (Hcol : In col targets) by (apply Hcols; now left).
    assert (Hrest : incl rest targets) by (intros x Hx'; apply Hcols; now right).
    assert (Hacc' : incl (if in_dec string_dec col acc then acc else acc ++ [col]) targets).
    { destruct (in_dec string_dec col acc); [exact Hacc|].
      intros x Hx'. apply in_app_or in Hx'. destruct Hx' as [Hx'|[<-|[]]]; auto. }
    rewrite first_occurrences_step.
    simpl indicator_loop. run. rewrite Hx.
    rewrite (@getitem_target mi vi _ _ Rtr acc col Hcol Hacc). simpl.
    rewrite (@setitem_target mi vi _ _ Rtr acc col Hcol Hacc). simpl.
    rewrite Ht. destruct te as [t|]; simpl.
    + rewrite (@getitem_target mi vi _ _ (Rte t eq_refl) acc col Hcol Hacc). simpl.
      rewrite (@setitem_target mi vi _ _ (Rte t eq_refl) acc col Hcol Hacc). simpl.
      rewrite (IH _ _ Hrest Hacc'); reflexivity.
    + rewrite (IH _ _ Hrest Hacc'); reflexivity.
Qed.

Section Resolved.

Variable _input_columns : list label -> list label -> list label.

(** C5, amended. When the target columns are columns of the table and no
    column of the table is yet named after a target with [_missing]
    appended, [replace_missing_indicator] with [keep_col] at its default
    returns with the table followed by exactly one new column per target,
    named [<target>_missing], whose entry in a row is the missing indicator
    when the target's entry in that row is missing and the valid indicator
    otherwise; the same holds for the test table when there is one. *)
Theorem replace_missing_indicator_adds (list_args list_of_cols : list label)
        (mi vi : cell) (s : obj) :
  let targets := _input_columns list_args list_of_cols in
  Spec.indicator_ready (x_train s) targets ->
  (forall te, x_test s = Some te -> Spec.indicator_ready te targets) ->
  replace_missing_indicator _input_columns list_args list_of_cols mi vi default_keep_col s
  = (Returned tt,
     mkObj (train_data s) (test_data s)
           (Spec.with_indicators mi vi (x_train s) targets)
           (option_map (fun te => Spec.with_indicators mi vi te targets) (x_test s))
           (stdout s) (warned s)).
Proof.
  intros targets Rtr Rte. unfold replace_missing_indicator, default_keep_col.
  fold targets.
  rewrite (@indicator_loop_run mi vi (x_train s) (x_test s) targets Rtr Rte targets [] s).
  - reflexivity.
  - apply incl_refl.
  - intros x [].
  - now rewrite extended_nil.
  - destruct (x_test s); simpl; [now rewrite extended_nil|reflexivity].
Qed.

End Resolved.

Lemma replace_missing_indicator_adds_witness :
  let s := Examples.train_test Examples.gaps_train Examples.gaps_test in
  let r := replace_missing_indicator explicit_columns ["b"%string; "a"%string] []
             default_missing_indicator default_valid_indicator default_keep_col s in
  fst r = Returned tt
  /\ x_train (snd r)
     = mkFrame [0; 1; 2]%Z
               [("a"%string, [Examples.int 1; Examples.nan; Examples.int 1]);
                ("b"%string, [Examples.nan; Examples.str "x"; Examples.str "y"]);
                ("b_missing"%string, [Examples.int 1; Examples.int 0; Examples.int 0]);
                ("a_missing"%string, [Examples.int 0; Examples.int 1; Examples.int 0])]
  /\ x_test (snd r)
     = Some (mkFrame [0; 1]%Z
               [("a"%string, [Examples.nan; Examples.int 5]);
                ("b"%string, [Examples.str "z"; Examples.nan]);
                ("b_missing"%string, [Examples.int 0; Examples.int 1]);
                ("a_missing"%string, [Examples.int 1; Examples.int 0])]).
Proof.
  intros s r. subst r.
  rewrite (@replace_missing_indicator_adds explicit_columns ["b"%string; "a"%string] []
             default_missing_indicator default_valid_indicator s).
  - repeat split.
  - repeat split.
    + repeat constructor; simpl; intuition discriminate.
    + repeat constructor.
    + simpl in H. simpl. intuition (subst; auto).
    + simpl in H. simpl. intuition (subst; discriminate).
  - intros te Hte. inversion Hte; subst te. repeat split.
    + repeat constructor; simpl; intuition discriminate.
    + repeat constructor.
    + simpl in H. simpl. intuition (subst; auto).
    + simpl in H. simpl. intuition (subst; discriminate).
Defined.

(** C5 as stated fails: on a table that already has a column [a_missing],
    the call for target [a] overwrites that column and adds none. *)
Lemma replace_missing_indicator_overwrites :
  let s := Examples.only_train Examples.taken_name in
  let r := replace_missing_indicator explicit_columns ["a"%string] []
             default_missing_indicator default_valid_indicator default_keep_col s in
  columns (x_train s) = ["a"%string; "a_missing"%string]
  /\ fst r = Returned tt
  /\ columns (x_train (snd r)) = columns (x_train s)
  /\ x_train (snd r)
     <> Spec.with_indicators default_missing_indicator default_valid_indicator
                             (x_train s) ["a"%string].
Proof.
  vm_compute. repeat split. discriminate.
Qed.

End IndicatorFacts.

(** ** Nearest-neighbour imputation without a test table *)

Module ImputerFacts.
Import Pandas Clean.
Local Open Scope py_scope.

Section Imputer.

Variable imputer : Type.
Variable KNNImputer : kwvalue -> kwargs -> outcome imputer.
Variable fit_transform : imputer -> ndarray -> outcome ndarray.

(** C9, amended. Without a test table [replace_missing_knn] never returns.
    When the imputer is constructed, its [fit_transform] on the training
    values returns and the result is as wide as the training table, the
    method raises [UnboundLocalError] (a [NameError]) on
    [test_knn_transformed] at its last assignment, and the training table has
    by then been replaced by the imputed one. *)
Theorem replace_missing_knn_without_test (k : Z) (knn_kwargs : kwargs) (s : obj) :
  test_data s = None ->
  returned (fst (replace_missing_knn KNNImputer fit_transform k knn_kwargs s)) = false
  /\ forall knn a train',
       KNNImputer (fst (pop knn_kwargs "n_neighbors" (KInt 5)))
                  (snd (pop knn_kwargs "n_neighbors" (KInt 5))) = Returned knn ->
       fit_transform knn (values (train_data s)) = Returned a ->
       DataFrame_of a (columns (train_data s)) = Returned train' ->
       replace_missing_knn KNNImputer fit_transform k knn_kwargs s
       = (Raised (UnboundLocalError "test_knn_transformed"),
          mkObj train' None (x_train s) (x_test s) (stdout s) (warned s))
       /\ isinstance_NameError (UnboundLocalError "test_knn_transformed") = true.
Proof.
  intro Ht. unfold replace_missing_knn.
  unfold bind, get, lift, ret, raise, set_train_data, set_test_data. simpl.
  split.
  - destruct (KNNImputer _ _) as [knn|e]; simpl; [|reflexivity].
    destruct (fit_transform knn _) as [a|e]; simpl; [|reflexivity].
    rewrite Ht. destruct (DataFrame_of a _) as [tr|e]; reflexivity.
  - intros knn a train' Hk Hf Hd. rewrite Hk. simpl. rewrite Hf. simpl.
    rewrite Ht, Hd. simpl. rewrite Ht. split; reflexivity.
Qed.

End Imputer.

Lemma replace_missing_knn_without_test_witness :
  let s := Examples.only_train Examples.twin_train in
  replace_missing_knn Examples.make_imputer Examples.checked_fit_transform 5 [] s
  = (Raised (UnboundLocalError "test_knn_transformed"),
     mkObj (mkFrame [0; 1]%Z
                    [("a"%string, [Examples.int 1; Examples.int 2]);
                     ("b"%string, [Examples.int 1; Examples.int 2])])
           None (x_train s) (x_test s) (stdout s) (warned s)).
Proof.
  intro s.
  destruct (@replace_missing_knn_without_test _ Examples.make_imputer
              Examples.checked_fit_transform 5 [] s eq_refl) as [_ H].
  apply (H (KInt 5, []) (values Examples.twin_train)); reflexivity.
Defined.

(** C9 as stated fails: on a table of words the imputer refuses the values,
    so without a test table the method raises that [ValueError], which is no
    [NameError], and the training table is as it was. *)
Lemma replace_missing_knn_imputer_raises :
  let s := Examples.only_train Examples.words in
  test_data s = None
  /\ replace_missing_knn Examples.make_imputer Examples.checked_fit_transform 5 [] s
     = (Raised (ValueError "could not convert string to float"), s)
  /\ isinstance_NameError (ValueError "could not convert string to float") = false.
Proof. vm_compute. repeat split. Qed.

End ImputerFacts.

(** ** Random discrete replacement *)

Module RandomFacts.
Import Pandas Clean SelectFacts.
Local Open Scope py_scope.

Lemma entry_kept_refl c : Forall2 Spec.entry_kept c c.
Proof. induction c; constructor; [now right|assumption]. Qed.

Lemma entry_kept_trans : forall a b c,
  Forall2 Spec.entry_kept a b -> Forall2 Spec.entry_kept b c -> Forall2 Spec.entry_kept a c.
Proof.
  induction a as [|x a IH]; intros b c Hab Hbc; inversion Hab; subst;
    inversion Hbc; subst; constructor.
  - unfold Spec.entry_kept in *. intuition congruence.
  - eapply IH; eauto.
Qed.

Lemma keeps_present_refl df : Spec.keeps_present df df.
Proof.
  split; [reflexivity|]. induction (data df); constructor; [|assumption].
  split; [reflexivity|apply entry_kept_refl].
Qed.

Lemma columns_kept_trans : forall (a b c : list (label * column)),
  Forall2 (fun c c' => fst c' = fst c /\ Forall2 Spec.entry_kept (snd c) (snd c')) a b ->
  Forall2 (fun c c' => fst c' = fst c /\ Forall2 Spec.entry_kept (snd c) (snd c')) b c ->
  Forall2 (fun c c' => fst c' = fst c /\ Forall2 Spec.entry_kept (snd c) (snd c')) a c.
Proof.
  induction a as [|x a IH]; intros b c Hab Hbc; inversion Hab; subst;
    inversion Hbc; subst; constructor.
  - destruct H1 as [E1 K1]. destruct H2 as [E2 K2]. split; [congruence|].
    eapply entry_kept_trans; eauto.
  - eapply IH; eauto.
Qed.

Lemma keeps_present_trans a b c :
  Spec.keeps_present a b -> Spec.keeps_present b c -> Spec.keeps_present a c.
Proof.
  intros [I1 D1] [I2 D2]. split; [congruence|]. eapply columns_kept_trans; eauto.
Qed.

(** Filling under the column's own null mask leaves its present entries. *)
Lemma fill_isnull_kept : forall c arr, Forall2 Spec.entry_kept c (fill c (isnull c) arr).
Proof.
  induction c as [|x c IH]; intro arr; simpl; [constructor|].
  destruct x as [v|]; simpl.
  - constructor; [now right|apply IH].
  - destruct arr as [|w arr]; constructor; try (now left); apply IH.
Qed.

(** With one draw per missing entry, the formerly missing entries are, in
    order, the draws. *)
Lemma fill_isnull_draws : forall c arr,
  List.length arr = count_true (isnull c) ->
  mask_select (fill c (isnull c) arr) (isnull c) = map Some arr.
Proof.
  induction c as [|x c IH]; intros arr H; simpl in *.
  - destruct arr; [reflexivity|discriminate].
  - destruct x as [v|]; simpl in *.
    + now apply IH.
    + destruct arr as [|w arr]; [discriminate|]. simpl. f_equal.
      apply IH. unfold count_true in *. simpl in H. now inversion H.
Qed.

Lemma getitem_unique df col c :
  getitem df col = Returned c ->
  exists c0, lookup_all col (data df) = [c0] /\ snd c0 = c.
Proof.
  unfold getitem. destruct (lookup_all col (data df)) as [|c0 [|c1 l]];
    intro H; inversion H; eauto.
Qed.

Lemma Forall2_map_r {A B} (R : A -> B -> Prop) (f : A -> B) : forall l,
  (forall x, In x l -> R x (f x)) -> Forall2 R l (map f l).
Proof.
  induction l as [|a l IH]; simpl; intro H; constructor; auto.
Qed.

Lemma lookup_all_map col (f : label * column -> label * column) : forall d,
  (forall c, fst (f c) = fst c) ->
  lookup_all col (map f d) = map f (lookup_all col d).
Proof.
  intros d Hf. induction d as [|c d IH]; simpl; [reflexivity|].
  unfold lookup_all in *. simpl. rewrite Hf.
  destruct (_ =? col)%string; simpl; now rewrite IH.
Qed.

(** Assigning under the null mask of the column itself. *)
Lemma loc_setitem_own df col c arr df' :
  getitem df col = Returned c ->
  loc_setitem df (isnull c) col arr = Returned df' ->
  Spec.keeps_present df df' /\ getitem df' col = Returned (fill c (isnull c) arr).
Proof.
  intros Hg Hs. destruct (getitem_unique _ _ Hg) as [c0 [L E]]. subst c.
  unfold loc_setitem in Hs.
  destruct (_ =? _)%nat; [|discriminate]. inversion Hs; subst df'; clear Hs.
  split.
  - split; [reflexivity|]. simpl. apply Forall2_map_r. intros x Hx.
    destruct (_ =? col)%string eqn:Eq; simpl.
    + split; [reflexivity|].
      assert (Hin : In x (lookup_all col (data df))).
      { unfold lookup_all. apply filter_In. now split. }
      rewrite L in Hin. destruct Hin as [<-|[]]. apply fill_isnull_kept.
    + split; [reflexivity|apply entry_kept_refl].
  - unfold getitem. simpl. rewrite lookup_all_map.
    + rewrite L. simpl.
      assert (Hl : fst c0 = col).
      { apply (lookup_all_labels col (data df)). rewrite L. now left. }
      apply String.eqb_eq in Hl.
      match goal with
      | |- context [if ?b then _ else _] => replace b with true by (symmetry; exact Hl)
      end.
      reflexivity.
    + intros x. now destruct (_ =? col)%string.
Qed.

Section Draws.

Variable _input_columns : list label -> list label -> list label.
Variable rng : Type.
Variable choice : list value -> nat -> list Q -> rng -> outcome (list value) * rng.

Lemma fill_from_keeps p df col g r :
  fill_from choice p df col g = Returned r -> Spec.keeps_present df (fst r).
Proof.
  unfold fill_from. destruct (getitem df col) as [c|] eqn:Hg; simpl; [|discriminate].
  destruct (fst (choice _ _ _ g)) as [arr|]; simpl; [|discriminate].
  destruct (loc_setitem df (isnull c) col arr) as [df'|] eqn:Hs; simpl; [|discriminate].
  intro H. inversion H; subst. simpl. eapply loc_setitem_own; eauto.
Qed.

(** Whatever the loop does, and however it ends, the present entries of both
    tables are as they were. *)
Lemma random_discrete_loop_keeps : forall cols g s,
  Spec.keeps_present (x_train s)
                     (x_train (snd (random_discrete_loop choice cols g s)))
  /\ Spec.keeps_present_opt (x_test s)
                            (x_test (snd (random_discrete_loop choice cols g s))).
Proof.
  assert (Hopt : forall o, Spec.keeps_present_opt o o).
  { intros [df|]; simpl; [apply keeps_present_refl|exact I]. }
  induction cols as [|col cols IH]; intros g s.
  - simpl. split; [apply keeps_present_refl|apply Hopt].
  - simpl random_discrete_loop.
    unfold bind, get, lift, ret, set_x_train, set_x_test. simpl.
    destruct (getitem (x_train s) col) as [c|]; simpl;
      [|split; [apply keeps_present_refl|apply Hopt]].
    destruct (fill_from choice (value_counts c) (x_train s) col g) as [r|] eqn:Htr; simpl;
      [|split; [apply keeps_present_refl|apply Hopt]].
    apply fill_from_keeps in Htr.
    destruct (x_test s) as [te|] eqn:Hte; simpl.
    + destruct (fill_from choice (value_counts c) te col (snd r)) as [r'|] eqn:Hfe; simpl.
      * apply fill_from_keeps in Hfe.
        match goal with
        | |- context [random_discrete_loop choice cols ?g' ?s'] =>
            destruct (IH g' s') as [K1 K2]
        end.
        simpl in K1, K2. split.
        -- eapply keeps_present_trans; eauto.
        -- destruct (x_test (snd (random_discrete_loop choice cols _ _))); simpl in *;
             [eapply keeps_present_trans; eauto|contradiction].
      * split; [exact Htr|apply keeps_present_refl].
    + match goal with
      | |- context [random_discrete_loop choice cols ?g' ?s'] =>
          destruct (IH g' s') as [K1 K2]
      end.
      simpl in K1, K2. split; [|exact K2].
      eapply keeps_present_trans; eauto.
Qed.

Lemma loc_setitem_returns df c col arr :
  List.length arr = count_true (isnull c) ->
  exists df', loc_setitem df (isnull c) col arr = Returned df'.
Proof.
  intro H. unfold loc_setitem. rewrite H, Nat.eqb_refl. eauto.
Qed.

(** C10. On tables with distinct column labels, the present entries of both
    tables are as they were, however the method ends.  For a selected column
    that both tables have, once the generator has handed back one draw per
    missing entry of the training column and of the test column, the missing
    entries of the test column are, in order, the values drawn with the
    value counts of the training column as it stood before its own gaps were
    filled (the arguments of the draw are those counts' values and shares,
    not the test column's), and the method goes on with the remaining
    columns. *)
Theorem test_filled_from_train_distribution
        (list_args list_of_cols : list label) (g : rng) (s : obj) :
  NoDup (columns (x_train s)) ->
  (forall te, x_test s = Some te -> NoDup (columns te)) ->
  (Spec.keeps_present
     (x_train s)
     (x_train (snd (replace_missing_random_discrete _input_columns choice
                      list_args list_of_cols g s)))
   /\ Spec.keeps_present_opt
        (x_test s)
        (x_test (snd (replace_missing_random_discrete _input_columns choice
                        list_args list_of_cols g s))))
  /\ forall col rest te c_tr c_te arr1 g1 arr2 g2,
       _input_columns list_args list_of_cols = col :: rest ->
       x_test s = Some te ->
       getitem (x_train s) col = Returned c_tr ->
       getitem te col = Returned c_te ->
       choice (map fst (value_counts c_tr)) (count_true (isnull c_tr))
              (map snd (value_counts c_tr)) g = (Returned arr1, g1) ->
       List.length arr1 = count_true (isnull c_tr) ->
       choice (map fst (value_counts c_tr)) (count_true (isnull c_te))
              (map snd (value_counts c_tr)) g1 = (Returned arr2, g2) ->
       List.length arr2 = count_true (isnull c_te) ->
       exists tr' te',
         replace_missing_random_discrete _input_columns choice list_args list_of_cols g s
         = random_discrete_loop choice rest g2
             (mkObj (train_data s) (test_data s) tr' (Some te') (stdout s) (warned s))
         /\ getitem tr' col = Returned (fill c_tr (isnull c_tr) arr1)
         /\ getitem te' col = Returned (fill c_te (isnull c_te) arr2)
         /\ mask_select (fill c_te (isnull c_te) arr2) (isnull c_te) = map Some arr2
         /\ Spec.keeps_present (x_train s) tr'
         /\ Spec.keeps_present te te'.
Proof.
  intros _ _.
  split; [apply random_discrete_loop_keeps|].
  intros col rest te c_tr c_te arr1 g1 arr2 g2 Hcols Hte Hgtr Hgte Hc1 Hl1 Hc2 Hl2.
  destruct (loc_setitem_returns (x_train s) c_tr col arr1 Hl1) as [tr' Hs1].
  destruct (loc_setitem_returns te c_te col arr2 Hl2) as [te' Hs2].
  destruct (loc_setitem_own _ _ _ Hgtr Hs1) as [K1 G1].
  destruct (loc_setitem_own _ _ _ Hgte Hs2) as [K2 G2].
  exists tr', te'.
  split; [|split; [exact G1|split; [exact G2|split;
            [now apply fill_isnull_draws|split; assumption]]]].
  unfold replace_missing_random_discrete. rewrite Hcols.
  simpl random_discrete_loop.
  unfold bind, get, lift, ret, set_x_train, set_x_test. simpl.
  rewrite Hgtr. simpl.
  unfold fill_from. rewrite Hgtr. simpl. rewrite Hc1. simpl. rewrite Hs1. simpl.
  rewrite Hte. simpl. rewrite Hgte. simpl. rewrite Hc2. simpl. rewrite Hs2. simpl.
  reflexivity.
Qed.

End Draws.

Lemma test_filled_from_train_distribution_witness :
  let s := Examples.train_test Examples.gaps_train Examples.gaps_test in
  exists tr' te',
    replace_missing_random_discrete explicit_columns Examples.first_choice
      ["a"%string] [] 0%nat s
    = (Returned 2%nat,
       mkObj (train_data s) (test_data s) tr' (Some te') (stdout s) (warned s))
    /\ getitem te' "a"%string = Returned [Examples.int 1; Examples.int 5].
Proof.
  intro s.
  destruct (@test_filled_from_train_distribution explicit_columns nat Examples.first_choice
              ["a"%string] [] 0%nat s) as [_ H].
  - simpl. repeat constructor; simpl; intuition discriminate.
  - intros te E. inversion E; subst. simpl.
    repeat constructor; simpl; intuition discriminate.
  - destruct (H "a"%string [] Examples.gaps_test
                [Examples.int 1; Examples.nan; Examples.int 1]
                [Examples.nan; Examples.int 5]
                [VInt 1] 1%nat [VInt 1] 2%nat)
      as [tr' [te' [Hrun [_ [Hg _]]]]]; [reflexivity..|].
    exists tr', te'. split; [exact Hrun|exact Hg].
Defined.

(** C10 as stated fails: when the training column has no present entry, its
    value counts are empty and the generator, asked for a draw from nothing,
    refuses; the method raises [ValueError], both tables are as they were,
    and the missing entry of the test column is still missing. *)
Lemma replace_missing_random_discrete_empty_distribution :
  let s := Examples.train_test Examples.blank_train Examples.gaps_test in
  let r := replace_missing_random_discrete explicit_columns Examples.first_choice
             ["a"%string] [] 0%nat s in
  getitem (x_train s) "a"%string = Returned [Examples.nan; Examples.nan]
  /\ value_counts [Examples.nan; Examples.nan] = []
  /\ r = (Raised (ValueError "'a' cannot be empty unless no samples are taken"), s)
  /\ x_test (snd r) = Some Examples.gaps_test
  /\ getitem Examples.gaps_test "a"%string = Returned [Examples.nan; Examples.int 5].
Proof. vm_compute. repeat split. Qed.

End RandomFacts.

(** ** Classification metrics *)

Module MetricFacts.
Import ClassificationModelAnalysis.

Lemma Qsum_indicators (score : list bool) :
  Qsum (map as_number score) = inject_Z (Z.of_nat (Pandas.count_true score)).
Proof.
  induction score as [|b score IH]; [reflexivity|].
  cbn [map Qsum fold_right]. fold (Qsum (map as_number score)). rewrite IH.
  destruct b.
  - change (Pandas.count_true (true :: score)) with (S (Pandas.count_true score)).
    rewrite Nat2Z.inj_succ. unfold as_number, Qplus, inject_Z. cbn [Qnum Qden].
    f_equal. lia.
  - change (Pandas.count_true (false :: score)) with (Pandas.count_true score).
    unfold as_number, Qplus, inject_Z. cbn [Qnum Qden].
    f_equal. lia.
Qed.

Lemma np_average_nonempty (score : list bool) :
  score <> [] ->
  np_average score None
  = Returned (Float (Qsum (map as_number score)
                     / inject_Z (Z.of_nat (List.length score)))).
Proof. destruct score; [congruence|reflexivity]. Qed.

Lemma agreements_count : forall y_true y_pred : list Z,
  Pandas.count_true (map (fun p => Z.eqb (fst p) (snd p)) (combine y_true y_pred))
  = Spec.correct_positions y_true y_pred.
Proof.
  unfold Pandas.count_true.
  induction y_true as [|a y_true IH]; intros [|b y_pred]; simpl; try reflexivity.
  destruct (Z.eqb a b); simpl; now rewrite IH.
Qed.

Section Analysis.

Variables features scores ap_kwargs : Type.
Variable average_precision_score : list Z -> scores -> ap_kwargs -> outcome pyfloat.


(** C7. A model without [decision_function] makes [average_precision]
    return NaN, without raising; with a [decision_function] the method is
    the average-precision formula applied to the stored labels and the
    output of the decision function on the stored test features. *)
Theorem average_precision_nan_or_formula (self : analysis features scores)
        (kw : ap_kwargs) :
  (hasattr_decision_function (model self) = false ->
   average_precision average_precision_score self kw = Returned NaN)
  /\ (forall f, decision_function (model self) = Some f ->
                average_precision average_precision_score self kw
                = obind (f (x_test self))
                        (fun out => average_precision_score (y_test self) out kw)).
Proof.
  unfold average_precision, hasattr_decision_function. split.
  - destruct (decision_function (model self)); [discriminate|reflexivity].
  - intros f ->. reflexivity.
Qed.

End Analysis.


Lemma average_precision_nan_or_formula_witness :
  average_precision (fun _ (out : Q) (_ : unit) => Returned (Float out))
                    (mkAnalysis (mkModel (features := Z) None) 3%Z [1; 0]%Z [1; 1]%Z) tt
  = Returned NaN
  /\ average_precision (fun _ (out : Q) (_ : unit) => Returned (Float out))
                       (mkAnalysis (mkModel (Some (fun x : Z => Returned (inject_Z x))))
                                   3%Z [1; 0]%Z [1; 1]%Z) tt
     = Returned (Float (inject_Z 3)).
Proof.
  split.
  - destruct (@average_precision_nan_or_formula Z Q unit
                (fun _ out _ => Returned (Float out))
                (mkAnalysis (mkModel None) 3%Z [1; 0]%Z [1; 1]%Z) tt) as [H _].
    apply H. reflexivity.
  - destruct (@average_precision_nan_or_formula Z Q unit
                (fun _ out _ => Returned (Float out))
                (mkAnalysis (mkModel (Some (fun x : Z => Returned (inject_Z x))))
                            3%Z [1; 0]%Z [1; 1]%Z) tt) as [_ H].
    apply (H _ eq_refl).
Defined.

End MetricFacts.

(** ** More on the column drops *)

Module ColumnDropFacts.
Import Pandas Clean SelectFacts DropFacts.
Local Open Scope py_scope.

Lemma ofilter_returns {A} (p : A -> outcome bool) : forall l,
  (forall a, In a l -> returned (p a) = true) ->
  ofilter p l = Returned (filter (fun a => returned_true (p a)) l).
Proof.
  induction l as [|a l IH]; simpl; intro H; [reflexivity|].
  assert (Ha := H a (or_introl eq_refl)).
  destruct (p a) as [b|e]; [|discriminate]. simpl.
  rewrite IH by (intros; apply H; now right). simpl. now destruct b.
Qed.

Lemma ofilter_raises {A} (p : A -> outcome bool) e : forall l,
  l <> [] -> (forall a, In a l -> p a = Raised e) -> ofilter p l = Raised e.
Proof.
  intros [|a l] Hne H; [congruence|]. simpl.
  now rewrite (H a (or_introl eq_refl)).
Qed.

Lemma filter_none {A} (f : A -> bool) : forall l,
  (forall x, f x = false) -> filter f l = [].
Proof. induction l as [|a l IH]; simpl; intro H; [reflexivity|]. rewrite H. now apply IH. Qed.

Lemma filter_all {A} (f : A -> bool) : forall l,
  (forall x, f x = true) -> filter f l = l.
Proof. induction l as [|a l IH]; simpl; intro H; [reflexivity|]. rewrite H, IH; auto. Qed.

Lemma series_getitem_counts (d : list (label * column)) c :
  NoDup (map fst d) -> In c d ->
  series_getitem (map (fun c => (fst c, Spec.unique_count (snd c))) d) (fst c)
  = Returned (inl (Spec.unique_count (snd c))).
Proof.
  intros ND Hin. apply in_split in Hin. destruct Hin as [pre [post E]].
  rewrite E in *. unfold series_getitem. rewrite map_app. simpl.
  change (fst c) with (fst (fst c, Spec.unique_count (snd c))) at 1.
  rewrite by_label_unique; [reflexivity|].
  rewrite map_app. simpl. rewrite !map_map. simpl.
  rewrite map_app in ND. exact ND.
Qed.

Lemma nunique_unhashable (d : list (label * column)) :
  forallb (fun c : label * column => forallb cell_hashable (snd c)) d = false ->
  omap (fun c => obind (Series_nunique (snd c)) (fun n => Returned (fst c, n))) d
  = Raised (TypeError "unhashable type: 'list'").
Proof.
  induction d as [|c d IH]; simpl; intro H; [discriminate|].
  unfold Series_nunique at 1.
  destruct (forallb cell_hashable (snd c)); simpl in *; [|reflexivity].
  now rewrite (IH H).
Qed.

(** X1. On a training table with distinct labels and hashable entries,
    [drop_unique_columns] leaves, in order, the columns whose count of
    unique non-missing values differs from the number of rows. *)
Theorem drop_unique_columns_exact (s : obj) :
  NoDup (columns (train_data s)) ->
  forallb (fun c : label * column => forallb cell_hashable (snd c))
          (data (train_data s)) = true ->
  train_data (snd (drop_unique_columns s))
  = mkFrame (index (train_data s))
            (filter (fun c => negb (Spec.unique_count (snd c) =? shape0 (train_data s))%nat)
                    (data (train_data s))).
Proof.
  intros ND Hh. unfold drop_unique_columns. run.
  assert (Hp : forall c, In c (data (train_data s)) ->
             obind (nunique (train_data s)) (fun counts =>
             obind (series_getitem counts (fst c)) (fun n =>
             ne_cond n (shape0 (train_data s))))
             = Returned (negb (Spec.unique_count (snd c) =? shape0 (train_data s))%nat)).
  { intros c Hc. unfold nunique. rewrite (nunique_hashable _ Hh). simpl.
    now rewrite (@series_getitem_counts (data (train_data s)) c ND Hc). }
  rewrite ofilter_returns.
  2:{ intros a Ha. unfold columns in Ha. apply in_map_iff in Ha.
      destruct Ha as [c [<- Hc]]. now rewrite (Hp c Hc). }
  simpl. unfold columns, getitem_list.
  rewrite (filter_map_fst _
             (fun c => negb (Spec.unique_count (snd c) =? shape0 (train_data s))%nat)).
  2:{ intros c Hc. rewrite (Hp c Hc). simpl. now destruct (_ =? _)%nat. }
  rewrite (select_filter _ (data (train_data s)) [] ND). simpl.
  destruct (test_data s) as [te|]; simpl; [|reflexivity].
  destruct (select (data te) _); reflexivity.
Qed.

Lemma drop_unique_columns_exact_witness :
  columns (train_data (snd (drop_unique_columns (Examples.only_train Examples.assorted))))
  = ["k"%string; "m"%string; "v"%string].
Proof.
  rewrite (@drop_unique_columns_exact (Examples.only_train Examples.assorted)).
  - reflexivity.
  - simpl. repeat constructor; simpl; intuition discriminate.
  - reflexivity.
Defined.

(** X2. When some entry of the training table cannot be hashed, the two
    unique-count drops part ways: [drop_unique_columns] raises [TypeError]
    and leaves the object as it was, while [drop_constant_columns] returns
    or fails later with the training table stripped of every column and one
    line printed per column. *)
Theorem unhashable_entry_all_or_nothing (s : obj) :
  forallb (fun c : label * column => forallb cell_hashable (snd c))
          (data (train_data s)) = false ->
  drop_unique_columns s = (Raised (TypeError "unhashable type: 'list'"), s)
  /\ train_data (snd (drop_constant_columns s)) = mkFrame (index (train_data s)) []
  /\ stdout (snd (drop_constant_columns s))
     = stdout s ++ map could_not_be_processed (columns (train_data s)).
Proof.
  intro Hh.
  assert (Hn : nunique (train_data s) = Raised (TypeError "unhashable type: 'list'"))
    by (apply nunique_unhashable, Hh).
  split; [|split].
  - unfold drop_unique_columns. run.
    rewrite (@ofilter_raises _ _ (TypeError "unhashable type: 'list'")).
    + reflexivity.
    + unfold columns. destruct (data (train_data s)); [discriminate|discriminate].
    + intros a _. now rewrite Hn.
  - destruct (drop_constant_columns_train s) as [r [Hsel [Htrain _]]].
    rewrite Htrain. f_equal.
    rewrite filter_none in Hsel; [now inversion Hsel|].
    intros x. unfold nunique_not_in_0_1. now rewrite Hn.
  - destruct (drop_constant_columns_train s) as [r [_ [_ [Hout _]]]].
    rewrite Hout. f_equal. f_equal.
    apply filter_all.
    intros x. unfold nunique_not_in_0_1. now rewrite Hn.
Qed.

Lemma unhashable_entry_all_or_nothing_witness :
  let s := Examples.only_train Examples.with_lists in
  drop_unique_columns s = (Raised (TypeError "unhashable type: 'list'"), s)
  /\ train_data (snd (drop_constant_columns s)) = mkFrame [0; 1]%Z []
  /\ stdout (snd (drop_constant_columns s))
     = ["Column a could not be processed."%string;
        "Column b could not be processed."%string].
Proof.
  apply (@unhashable_entry_all_or_nothing (Examples.only_train Examples.with_lists)).
  reflexivity.
Defined.

Lemma select_missing d : forall labels l,
  In l labels -> ~ In l (map fst d) ->
  exists k, select d labels = Raised (KeyError k).
Proof.
  induction labels as [|l0 ls IH]; simpl; intros l Hin Hout; [contradiction|].
  destruct (lookup_all l0 d) as [|c0 found] eqn:E; [eauto|].
  destruct Hin as [->|Hin].
  - rewrite (lookup_all_notin _ _ Hout) in E. discriminate.
  - destruct (IH l Hin Hout) as [k ->]. simpl. eauto.
Qed.

(** Selection takes its columns from the table. *)
Lemma select_incl d : forall labels r,
  select d labels = Returned r -> incl r d.
Proof.
  induction labels as [|l ls IH]; simpl; intros r Hr.
  - inversion Hr. intros x [].
  - destruct (lookup_all l d) as [|c0 found] eqn:E; [discriminate|].
    destruct (select d ls) as [r'|]; simpl in Hr; [|discriminate].
    inversion Hr; subst. intros x Hx.
    change (c0 :: found ++ r') with ((c0 :: found) ++ r') in Hx.
    apply in_app_or in Hx. destruct Hx as [Hx|Hx]; [|now apply (IH r')].
    rewrite <- E in Hx. unfold lookup_all in Hx. now apply filter_In in Hx.
Qed.

Lemma kept_labels threshold (d : list (label * column)) :
  mask_select (map fst d)
              (map (fun m => nan_lt m threshold)
                   (map (fun c => mean (isnull (snd c))) d))
  = map fst (filter (fun c => nan_lt (Spec.fraction_missing (snd c)) threshold) d).
Proof.
  rewrite map_map, mask_select_map.
  now rewrite (mask_select_filter (fun c => nan_lt (mean (isnull (snd c))) threshold)).
Qed.

(** Under a threshold with few binary digits a fraction of the rows that is
    below the threshold is below it by [2^-52] at least: half a unit in the
    last place of a double up to one is [2^-54], so rounding the quotient
    does not carry it to the threshold. *)
Lemma few_binary_digits_margin (threshold : Q) (rows k : nat) :
  Spec.few_binary_digits threshold rows -> (0 < rows)%nat ->
  inject_Z (Z.of_nat k) / inject_Z (Z.of_nat rows) < threshold ->
  inject_Z (Z.of_nat k) / inject_Z (Z.of_nat rows) + 1 / inject_Z (2 ^ 52) <= threshold.
Proof.
  intros [T [j [E Hle]]] Hrows Hlt. rewrite E in *. clear E threshold.
  assert (Hp : (0 < 2 ^ Z.of_nat j)%Z) by (apply Z.pow_pos_nonneg; lia).
  destruct (2 ^ Z.of_nat j)%Z as [|P|P] eqn:EP; try lia.
  destruct rows as [|r]; [lia|].
  remember (Z.of_nat k) as K.
  change (2 ^ 52)%Z with 4503599627370496%Z in *.
  unfold Qlt, Qle, Qdiv, Qmult, Qplus, Qinv, inject_Z in *. simpl in *.
  rewrite ?Z.mul_1_r, ?Pos.mul_1_r, ?Pos2Z.inj_mul in *.
  nia.
Qed.

(** X3. For a threshold within range that has few binary digits for the
    number of rows (so that the doubles the code compares are ordered as the
    exact numbers), on a training table with distinct labels and a test
    table with distinct labels that has every training column,
    [drop_column_missing_threshold] returns; the training table keeps, in
    order, the columns whose fraction of missing entries is below the
    threshold; the test table is reduced to the same labels in the same
    order, each carrying the test table's own column, and keeps its rows. *)
Theorem drop_column_missing_threshold_both (threshold : Q) (s : obj) (te : DataFrame) :
  0 <= threshold <= 1 ->
  Spec.few_binary_digits threshold (shape0 (train_data s)) ->
  test_data s = Some te ->
  NoDup (columns (train_data s)) ->
  NoDup (columns te) ->
  incl (columns (train_data s)) (columns te) ->
  exists te',
    drop_column_missing_threshold threshold s
    = (Returned tt,
       mkObj (mkFrame (index (train_data s))
                      (filter (fun c => nan_lt (Spec.fraction_missing (snd c)) threshold)
                              (data (train_data s))))
             (Some te') (x_train s) (x_test s) (stdout s) (warned s))
    /\ index te' = index te
    /\ columns te'
       = map fst (filter (fun c => nan_lt (Spec.fraction_missing (snd c)) threshold)
                         (data (train_data s)))
    /\ incl (data te') (data te).
Proof.
  intros H _ Ht ND1 ND2 Hincl. apply in_range in H.
  destruct (@select_total (data te)
              (map fst (filter (fun c => nan_lt (Spec.fraction_missing (snd c)) threshold)
                               (data (train_data s))))) as [r Hr].
  { intros l Hl. apply Hincl. unfold columns. apply in_map_iff in Hl.
    destruct Hl as [c [<- Hc]]. apply filter_In in Hc. apply in_map, Hc. }
  exists (mkFrame (index te) r).
  split; [|split; [reflexivity|split]].
  - unfold drop_column_missing_threshold. rewrite H. run.
    unfold isnull_mean, columns, getitem_list. rewrite kept_labels.
    rewrite (select_filter _ (data (train_data s)) [] ND1). simpl.
    rewrite Ht. simpl. rewrite Hr. reflexivity.
  - unfold columns. simpl. apply (@select_columns _ ND2 _ _ Hr).
  - simpl. eapply select_incl, Hr.
Qed.

Lemma drop_column_missing_threshold_both_witness :
  exists te',
    drop_column_missing_threshold (1 # 2)
      (Examples.train_test Examples.graded Examples.gaps_test)
    = (Returned tt,
       mkObj (mkFrame [0; 1; 2]%Z
                      [("b"%string, [Examples.int 2; Examples.int 3; Examples.nan])])
             (Some te') Examples.graded (Some Examples.gaps_test) [] [])
    /\ columns te' = ["b"%string].
Proof.
  destruct (@drop_column_missing_threshold_both (1 # 2)
              (Examples.train_test Examples.graded Examples.gaps_test) Examples.gaps_test)
    as [te' [H1 [_ [H3 _]]]].
  - split; discriminate.
  - exists 1%Z, 1%nat. split; [reflexivity|]. simpl. lia.
  - reflexivity.
  - simpl. repeat constructor; simpl; intuition discriminate.
  - simpl. repeat constructor; simpl; intuition discriminate.
  - intros x Hx. exact Hx.
  - exists te'. split; [exact H1|exact H3].
Defined.

(** X4. The column drop is not atomic: for a threshold within range that has
    few binary digits for the number of rows, when the training table keeps
    a column the test table does not have, [drop_column_missing_threshold]
    raises [KeyError] with the training table already reduced and the test
    table as it was. *)
Theorem drop_column_missing_threshold_test_lacks (threshold : Q) (s : obj)
        (te : DataFrame) (c : label * column) :
  0 <= threshold <= 1 ->
  Spec.few_binary_digits threshold (shape0 (train_data s)) ->
  test_data s = Some te ->
  NoDup (columns (train_data s)) ->
  In c (data (train_data s)) ->
  nan_lt (Spec.fraction_missing (snd c)) threshold = true ->
  ~ In (fst c) (columns te) ->
  exists k,
    drop_column_missing_threshold threshold s
    = (Raised (KeyError k),
       mkObj (mkFrame (index (train_data s))
                      (filter (fun c => nan_lt (Spec.fraction_missing (snd c)) threshold)
                              (data (train_data s))))
             (Some te) (x_train s) (x_test s) (stdout s) (warned s)).
Proof.
  intros H _ Ht ND Hc Hkeep Hlack. apply in_range in H.
  destruct (@select_missing (data te)
              (map fst (filter (fun c => nan_lt (Spec.fraction_missing (snd c)) threshold)
                               (data (train_data s)))) (fst c)) as [k Hk].
  { apply in_map. apply filter_In. now split. }
  { exact Hlack. }
  exists k. unfold drop_column_missing_threshold. rewrite H. run.
  unfold isnull_mean, columns, getitem_list. rewrite kept_labels.
  rewrite (select_filter _ (data (train_data s)) [] ND). simpl.
  rewrite Ht. simpl. rewrite Hk. reflexivity.
Qed.

Lemma drop_column_missing_threshold_test_lacks_witness :
  exists k,
    drop_column_missing_threshold (1 # 2)
      (Examples.train_test Examples.graded Examples.words)
    = (Raised (KeyError k),
       mkObj (mkFrame [0; 1; 2]%Z
                      [("b"%string, [Examples.int 2; Examples.int 3; Examples.nan])])
             (Some Examples.words) Examples.graded (Some Examples.words) [] []).
Proof.
  apply (@drop_column_missing_threshold_test_lacks (1 # 2)
           (Examples.train_test Examples.graded Examples.words) Examples.words
           ("b"%string, [Examples.int 2; Examples.int 3; Examples.nan])).
  - split; discriminate.
  - exists 1%Z, 1%nat. split; [reflexivity|]. simpl. lia.
  - reflexivity.
  - simpl. repeat constructor; simpl; intuition discriminate.
  - simpl. auto.
  - reflexivity.
  - simpl. intuition discriminate.
Defined.

End ColumnDropFacts.

(** ** Row drops *)

Module RowDropFacts.
Import Pandas PandasRows Clean DropFacts.
Local Open Scope py_scope.

(** A mask that is true on the whole range selects everything. *)
Lemma mask_select_range_all {A} (f : nat -> bool) : forall (l : list A) a n,
  (List.length l <= n)%nat ->
  (forall i, (i < List.length l)%nat -> f (a + i)%nat = true) ->
  mask_select l (map f (seq a n)) = l.
Proof.
  induction l as [|x l IH]; intros a n Hlen Hf; [now destruct n|].
  destruct n as [|n]; simpl in Hlen; [lia|]. simpl.
  assert (H0 := Hf 0%nat). rewrite Nat.add_0_r in H0. rewrite H0 by (simpl; lia).
  f_equal. apply IH; [lia|].
  intros i Hi. replace (S a + i)%nat with (a + S i)%nat by lia.
  apply Hf. simpl. lia.
Qed.

(** What a mask selects satisfies whatever the mask bits guarantee. *)
Lemma mask_select_range_sound {A} (P : A -> Prop) (d : A) (f : nat -> bool) :
  forall (l : list A) a n,
    (forall i, (i < List.length l)%nat -> f (a + i)%nat = true -> P (nth i l d)) ->
    Forall P (mask_select l (map f (seq a n))).
Proof.
  induction l as [|x l IH]; intros a n Hf; [destruct n; constructor|].
  destruct n as [|n]; simpl; [constructor|].
  assert (Htl : Forall P (mask_select l (map f (seq (S a) n)))).
  { apply IH. intros i Hi Hfi. replace (S a + i)%nat with (a + S i)%nat in Hfi by lia.
    apply (Hf (S i)); [simpl; lia|exact Hfi]. }
  destruct (f a) eqn:E; [|exact Htl].
  constructor; [|exact Htl].
  apply (Hf 0%nat); [simpl; lia|]. now rewrite Nat.add_0_r.
Qed.

Lemma mask_select_length {A} : forall (l : list A) m,
  List.length l = List.length m ->
  List.length (mask_select l m) = count_true m.
Proof.
  unfold count_true.
  induction l as [|x l IH]; intros [|b m] H; simpl in *; try discriminate; [reflexivity|].
  destruct b; simpl; rewrite IH; auto.
Qed.

Lemma py_round_small q : 0 <= q -> q <= 1 # 2 -> py_round q = 0%Z.
Proof.
  intros H0 H1. unfold py_round.
  assert (Hf : Qfloor q = 0%Z).
  { apply Z.le_antisymm.
    - change 0%Z with (Qfloor (1 # 2)). now apply Qfloor_resp_le.
    - change 0%Z with (Qfloor 0). now apply Qfloor_resp_le. }
  rewrite Hf.
  destruct (Qcompare (q - inject_Z 0) (1 # 2)) eqn:E; try reflexivity.
  exfalso. apply Qgt_alt in E. apply (Qlt_not_le _ _ E).
  setoid_replace (q - inject_Z 0) with q by (unfold inject_Z; ring). exact H1.
Qed.

Lemma py_round_whole z : py_round (inject_Z z * 1) = z.
Proof.
  assert (E : inject_Z z * 1 = inject_Z z).
  { unfold Qmult, inject_Z. cbn [Qnum Qden]. f_equal. lia. }
  rewrite E. unfold py_round. rewrite Qfloor_Z.
  assert (C : Qcompare (inject_Z z - inject_Z z) (1 # 2) = Lt).
  { apply Qlt_alt. setoid_replace (inject_Z z - inject_Z z) with 0 by ring. reflexivity. }
  now rewrite C.
Qed.

(** Asking for no present entry keeps every row. *)
Lemma dropna_thresh_nothing df t :
  rectangular df -> (t <= 0)%Z -> dropna_thresh df t = df.
Proof.
  intros R Ht. unfold dropna_thresh. destruct df as [idx d].
  unfold rectangular, shape0 in *. cbn [index data] in *. f_equal.
  - apply mask_select_range_all; [lia|]. intros i _. apply Z.leb_le. lia.
  - rewrite <- (map_id d) at 2. apply map_ext_in. intros c Hc.
    rewrite Forall_forall in R. specialize (R c Hc).
    destruct c as [l c]. cbn [fst snd] in *. f_equal.
    apply mask_select_range_all; [lia|].
    intros i _. apply Z.leb_le. lia.
Qed.

(** X5. With a threshold so small that the number of columns times it is at
    most one half (threshold 0 above all), [drop_rows_missing_threshold]
    drops no row at all, not even a row without a single entry: the object is
    as it was. *)
Theorem drop_rows_missing_threshold_nothing (threshold : Q) (s : obj) :
  0 <= threshold <= 1 ->
  rectangular (train_data s) ->
  inject_Z (Z.of_nat (shape1 (train_data s))) * threshold <= 1 # 2 ->
  (forall te, test_data s = Some te ->
              rectangular te
              /\ inject_Z (Z.of_nat (shape1 te)) * threshold <= 1 # 2) ->
  drop_rows_missing_threshold threshold s = (Returned tt, s).
Proof.
  intros H R Hsmall Hte.
  assert (Hpos : forall n : nat, 0 <= inject_Z (Z.of_nat n) * threshold).
  { intro n. apply Qmult_le_0_compat; [|apply H].
    change 0 with (inject_Z 0). rewrite <- Zle_Qle. lia. }
  unfold drop_rows_missing_threshold. rewrite (in_range H). run.
  unfold row_thresh. rewrite (py_round_small (Hpos _) Hsmall).
  rewrite (dropna_thresh_nothing R (Z.le_refl 0)).
  destruct (test_data s) as [te|] eqn:Et; simpl.
  - destruct (Hte te eq_refl) as [Rte Hs].
    rewrite (py_round_small (Hpos _) Hs), (dropna_thresh_nothing Rte (Z.le_refl 0)).
    destruct s; simpl in *; now subst.
  - destruct s; simpl in *; now subst.
Qed.

Lemma drop_rows_missing_threshold_nothing_witness :
  drop_rows_missing_threshold (1 # 4) (Examples.only_train Examples.graded)
  = (Returned tt, Examples.only_train Examples.graded).
Proof.
  apply (@drop_rows_missing_threshold_nothing (1 # 4) (Examples.only_train Examples.graded)).
  - split; discriminate.
  - repeat constructor.
  - discriminate.
  - intros te Hte. discriminate.
Defined.

Lemma count_notnull_le r : (count_notnull r <= List.length r)%nat.
Proof.
  unfold count_notnull, count_true, isnull.
  induction r as [|x r IH]; simpl; [lia|]. destruct x; simpl; lia.
Qed.

Lemma count_notnull_full : forall r,
  (List.length r <= count_notnull r)%nat -> forall x, In x r -> present x = true.
Proof.
  induction r as [|y r IH]; intros H x Hx; [contradiction|].
  assert (Hle := count_notnull_le r).
  unfold count_notnull, count_true, isnull in *. simpl in H.
  destruct y as [v|]; simpl in H.
  - destruct Hx as [<-|Hx]; [reflexivity|]. apply IH; [lia|exact Hx].
  - lia.
Qed.

(** The rows [dropna_thresh] keeps when every column must be present are
    complete. *)
Lemma dropna_thresh_full df c :
  In c (data (dropna_thresh df (Z.of_nat (shape1 df)))) ->
  forallb present (snd c) = true.
Proof.
  unfold dropna_thresh. simpl. intro Hc. apply in_map_iff in Hc.
  destruct Hc as [c0 [<- Hc0]]. simpl. apply forallb_forall. apply Forall_forall.
  apply mask_select_range_sound with (d := None).
  intros i _ Hk. simpl in Hk. apply Z.leb_le in Hk.
  apply (count_notnull_full (row df i)).
  - unfold row. rewrite length_map. apply Nat2Z.inj_le in Hk. exact Hk.
  - unfold row. apply in_map_iff. exists c0. auto.
Qed.

(** X6. With threshold 1 [drop_rows_missing_threshold] returns and leaves only
    complete rows: no column of the training table, nor of the test table
    when there is one, holds a missing entry afterwards. *)
Theorem drop_rows_missing_threshold_one (s : obj) :
  fst (drop_rows_missing_threshold 1 s) = Returned tt
  /\ (forall c, In c (data (train_data (snd (drop_rows_missing_threshold 1 s)))) ->
                forallb present (snd c) = true)
  /\ (forall te' c, test_data (snd (drop_rows_missing_threshold 1 s)) = Some te' ->
                    In c (data te') -> forallb present (snd c) = true).
Proof.
  unfold drop_rows_missing_threshold.
  change (Qltb 1 1 || Qltb 1 0) with false. cbv iota. run.
  unfold row_thresh. rewrite py_round_whole.
  destruct (test_data s) as [te|]; simpl.
  - rewrite py_round_whole. split; [reflexivity|split].
    + intros c. apply dropna_thresh_full.
    + intros te' c E. inversion E; subst. apply dropna_thresh_full.
  - split; [reflexivity|split].
    + intros c. apply dropna_thresh_full.
    + discriminate.
Qed.

End RowDropFacts.

(** ** Removing the rows with a missing target *)

Module RemoveRowFacts.
Import Pandas PandasRows Clean CleanRest RowDropFacts.
Local Open Scope py_scope.

Lemma in_subset l (subset : list label) :
  existsb (String.eqb l) subset = true <-> In l subset.
Proof.
  rewrite existsb_exists. split.
  - intros [x [Hx E]]. apply String.eqb_eq in E. now subst.
  - intro H. exists l. split; [exact H|apply String.eqb_refl].
Qed.

(** The parts of a table [dropna_subset] returns. *)
Lemma dropna_subset_returned df subset df' :
  dropna_subset df subset = Returned df' ->
  filter (fun l => negb (existsb (String.eqb l) (columns df))) subset = []
  /\ df' = mkFrame
             (mask_select (index df)
                (map (fun i => forallb (fun c => present (nth i (snd c) None))
                                       (filter (fun c => existsb (String.eqb (fst c)) subset)
                                               (data df)))
                     (seq 0 (shape0 df))))
             (map (fun c => (fst c,
                             mask_select (snd c)
                               (map (fun i => forallb (fun c => present (nth i (snd c) None))
                                                      (filter (fun c => existsb (String.eqb (fst c)) subset)
                                                              (data df)))
                                    (seq 0 (shape0 df)))))
                  (data df)).
Proof.
  unfold dropna_subset.
  destruct (filter (fun l => negb (existsb (String.eqb l) (columns df))) subset)
    as [|l ls]; intro H; [|discriminate].
  inversion H. auto.
Qed.

(** After [dropna_subset] the columns carrying a requested label are
    complete. *)
Lemma dropna_subset_complete df subset df' c :
  dropna_subset df subset = Returned df' ->
  In c (data df') -> In (fst c) subset ->
  forallb present (snd c) = true.
Proof.
  intros H Hc Hl. apply dropna_subset_returned in H. destruct H as [_ ->].
  simpl in Hc. apply in_map_iff in Hc. destruct Hc as [c0 [<- Hc0]]. simpl in *.
  apply forallb_forall. apply Forall_forall.
  apply mask_select_range_sound with (d := None).
  intros i _ Hk. simpl in Hk. rewrite forallb_forall in Hk.
  apply (Hk c0). apply filter_In. split; [exact Hc0|]. now apply in_subset.
Qed.

Lemma dropna_subset_columns df subset df' :
  dropna_subset df subset = Returned df' -> columns df' = columns df.
Proof.
  intro H. apply dropna_subset_returned in H. destruct H as [_ ->].
  unfold columns. simpl. rewrite map_map. reflexivity.
Qed.

Lemma dropna_subset_rectangular df subset df' :
  rectangular df -> dropna_subset df subset = Returned df' -> rectangular df'.
Proof.
  intros R H. apply dropna_subset_returned in H. destruct H as [_ ->].
  unfold rectangular, shape0 in *. simpl. rewrite Forall_forall in *.
  intros c Hc. apply in_map_iff in Hc. destruct Hc as [c0 [<- Hc0]]. simpl.
  rewrite !mask_select_length; [reflexivity| |];
    rewrite length_map, length_seq; [reflexivity|apply (R c0 Hc0)].
Qed.

(** A rectangular table whose requested columns exist and are complete is
    handed back as it is. *)
Lemma dropna_subset_fixpoint df subset :
  rectangular df ->
  filter (fun l => negb (existsb (String.eqb l) (columns df))) subset = [] ->
  (forall c, In c (data df) -> In (fst c) subset -> forallb present (snd c) = true) ->
  dropna_subset df subset = Returned df.
Proof.
  intros R Hl Hc. unfold dropna_subset. rewrite Hl. f_equal.
  assert (Hk : forall c0, In c0 (data df) ->
            forall i, (i < List.length (snd c0))%nat ->
            forallb (fun c => present (nth i (snd c) None))
                    (filter (fun c => existsb (String.eqb (fst c)) subset) (data df)) = true).
  { intros c0 Hc0 i Hi. apply forallb_forall. intros c Hin.
    apply filter_In in Hin. destruct Hin as [Hin Hs]. apply in_subset in Hs.
    assert (Hfull := Hc c Hin Hs). rewrite forallb_forall in Hfull.
    apply Hfull. apply nth_In.
    unfold rectangular in R. rewrite Forall_forall in R.
    assert (E1 := R c Hin). assert (E2 := R c0 Hc0).
    unfold column, cell, label in *. lia. }
  destruct df as [idx d]. unfold rectangular, shape0 in *. cbn [index data] in *.
  rewrite Forall_forall in R. f_equal.
  - destruct d as [|c0 d'].
    + simpl. apply mask_select_range_all; [lia|]. reflexivity.
    + apply mask_select_range_all; [lia|]. intros i Hi. simpl Nat.add.
      apply (Hk c0 (or_introl eq_refl)).
      assert (E := R c0 (or_introl eq_refl)). unfold column, cell, label in *. lia.
  - transitivity (map (fun x : label * column => x) d); [|apply map_id].
    apply map_ext_in. intros c0 Hc0.
    assert (E := R c0 Hc0).
    destruct c0 as [l c0]. cbn [fst snd] in *. f_equal.
    apply mask_select_range_all; [unfold column, cell, label in *; lia|].
    intros i Hi. simpl Nat.add. apply (Hk _ Hc0). exact Hi.
Qed.

Lemma dropna_subset_idempotent df subset df' :
  rectangular df ->
  dropna_subset df subset = Returned df' ->
  dropna_subset df' subset = Returned df'.
Proof.
  intros R H. apply dropna_subset_fixpoint.
  - eapply dropna_subset_rectangular; eauto.
  - rewrite (dropna_subset_columns _ _ H).
    now apply dropna_subset_returned in H.
  - intros c Hc Hl. eapply dropna_subset_complete; eauto.
Qed.

Lemma dropna_subset_missing df subset t :
  In t subset -> ~ In t (columns df) ->
  exists k, dropna_subset df subset = Raised (KeyError k).
Proof.
  intros Ht Hout. unfold dropna_subset.
  destruct (filter (fun l => negb (existsb (String.eqb l) (columns df))) subset)
    as [|l ls] eqn:E; [|eauto].
  exfalso.
  assert (Hin : In t (filter (fun l => negb (existsb (String.eqb l) (columns df))) subset)).
  { apply filter_In. split; [exact Ht|].
    destruct (existsb (String.eqb t) (columns df)) eqn:Ex; [|reflexivity].
    apply in_subset in Ex. contradiction. }
  rewrite E in Hin. contradiction.
Qed.

Lemma dropna_subset_total df subset :
  incl subset (columns df) -> exists df', dropna_subset df subset = Returned df'.
Proof.
  intro H. unfold dropna_subset.
  destruct (filter (fun l => negb (existsb (String.eqb l) (columns df))) subset)
    as [|l ls] eqn:E; [eauto|].
  exfalso.
  assert (Hin : In l (filter (fun l => negb (existsb (String.eqb l) (columns df))) subset))
    by (rewrite E; now left).
  apply filter_In in Hin. destruct Hin as [Hl Hn].
  apply H, in_subset in Hl. rewrite Hl in Hn. discriminate.
Qed.

Section Resolved.

Variable _input_columns : list label -> list label -> list label.

(** X7. When [replace_missing_remove_row] returns, no target column holds a
    missing entry any more, in the training table and in the test table when
    there is one. *)
Theorem replace_missing_remove_row_complete
        (list_args list_of_cols : list label) (s s' : obj) :
  replace_missing_remove_row _input_columns list_args list_of_cols s = (Returned tt, s') ->
  (forall c, In c (data (x_train s')) ->
             In (fst c) (_input_columns list_args list_of_cols) ->
             forallb present (snd c) = true)
  /\ (forall te' c, x_test s' = Some te' -> In c (data te') ->
                    In (fst c) (_input_columns list_args list_of_cols) ->
                    forallb present (snd c) = true).
Proof.
  unfold replace_missing_remove_row. run.
  destruct (dropna_subset (x_train s) _) as [tr'|] eqn:E1; simpl; [|discriminate].
  destruct (x_test s) as [te|]; simpl.
  - destruct (dropna_subset te _) as [te'|] eqn:E2; simpl; [|discriminate].
    intro H. inversion H; subst; simpl. split.
    + intros c Hc Hl. eapply dropna_subset_complete; [exact E1|exact Hc|exact Hl].
    + intros te0 c E Hc Hl. inversion E; subst.
      eapply dropna_subset_complete; [exact E2|exact Hc|exact Hl].
  - intro H. inversion H; subst; simpl. split.
    + intros c Hc Hl. eapply dropna_subset_complete; [exact E1|exact Hc|exact Hl].
    + discriminate.
Qed.

(** X8. On rectangular tables [replace_missing_remove_row] is idempotent: once
    it has returned, running it again with the same targets returns and
    changes nothing. *)
Theorem replace_missing_remove_row_idempotent
        (list_args list_of_cols : list label) (s s' : obj) :
  rectangular (x_train s) ->
  (forall te, x_test s = Some te -> rectangular te) ->
  replace_missing_remove_row _input_columns list_args list_of_cols s = (Returned tt, s') ->
  replace_missing_remove_row _input_columns list_args list_of_cols s' = (Returned tt, s').
Proof.
  intros R Rt. unfold replace_missing_remove_row. run.
  destruct (dropna_subset (x_train s) _) as [tr'|] eqn:E1; simpl; [|discriminate].
  destruct (x_test s) as [te|]; simpl.
  - destruct (dropna_subset te _) as [te'|] eqn:E2; simpl; [|discriminate].
    intro H. inversion H; subst; simpl.
    rewrite (@dropna_subset_idempotent _ _ _ R E1). simpl.
    rewrite (@dropna_subset_idempotent _ _ _ (Rt te eq_refl) E2). reflexivity.
  - intro H. inversion H; subst; simpl.
    rewrite (@dropna_subset_idempotent _ _ _ R E1). reflexivity.
Qed.

(** X9. A target that is not a column of the training table makes
    [replace_missing_remove_row] raise [KeyError] with the object as it was;
    when only the test table lacks it, the [KeyError] comes after the rows of
    the training table have been removed. *)
Theorem replace_missing_remove_row_missing_target
        (list_args list_of_cols : list label) (s : obj) (t : label) :
  In t (_input_columns list_args list_of_cols) ->
  (~ In t (columns (x_train s)) ->
   exists k, replace_missing_remove_row _input_columns list_args list_of_cols s
             = (Raised (KeyError k), s))
  /\ (forall te,
        incl (_input_columns list_args list_of_cols) (columns (x_train s)) ->
        x_test s = Some te -> ~ In t (columns te) ->
        exists k train',
          dropna_subset (x_train s) (_input_columns list_args list_of_cols) = Returned train'
          /\ replace_missing_remove_row _input_columns list_args list_of_cols s
             = (Raised (KeyError k),
                mkObj (train_data s) (test_data s) train' (Some te) (stdout s) (warned s))).
Proof.
  intro Ht. split.
  - intro Hout. destruct (@dropna_subset_missing _ _ _ Ht Hout) as [k Hk].
    exists k. unfold replace_missing_remove_row. run. now rewrite Hk.
  - intros te Hincl Hte Hout.
    destruct (@dropna_subset_total _ _ Hincl) as [train' Htr].
    destruct (@dropna_subset_missing _ _ _ Ht Hout) as [k Hk].
    exists k, train'. split; [exact Htr|].
    unfold replace_missing_remove_row. run. rewrite Htr. simpl.
    rewrite Hte. simpl. rewrite Hk. reflexivity.
Qed.

End Resolved.

Lemma replace_missing_remove_row_complete_witness :
  let r := replace_missing_remove_row explicit_columns ["a"%string] []
             (Examples.train_test Examples.gaps_train Examples.gaps_test) in
  x_train (snd r)
  = mkFrame [0; 2]%Z
            [("a"%string, [Examples.int 1; Examples.int 1]);
             ("b"%string, [Examples.nan; Examples.str "y"])]
  /\ forall c, In c (data (x_train (snd r))) -> In (fst c) ["a"%string] ->
               forallb present (snd c) = true.
Proof.
  intro r. split; [reflexivity|].
  apply (@replace_missing_remove_row_complete explicit_columns ["a"%string] []
           (Examples.train_test Examples.gaps_train Examples.gaps_test) (snd r)).
  reflexivity.
Defined.

Lemma replace_missing_remove_row_idempotent_witness :
  let r := replace_missing_remove_row explicit_columns ["a"%string; "b"%string] []
             (Examples.train_test Examples.gaps_train Examples.gaps_test) in
  replace_missing_remove_row explicit_columns ["a"%string; "b"%string] [] (snd r)
  = (Returned tt, snd r).
Proof.
  intro r.
  apply (@replace_missing_remove_row_idempotent explicit_columns
           ["a"%string; "b"%string] []
           (Examples.train_test Examples.gaps_train Examples.gaps_test) (snd r)).
  - repeat constructor.
  - intros te E. inversion E. repeat constructor.
  - reflexivity.
Defined.

Lemma replace_missing_remove_row_missing_target_witness :
  (exists k, replace_missing_remove_row explicit_columns ["w"%string] []
               (Examples.train_test Examples.gaps_train Examples.gaps_test)
             = (Raised (KeyError k),
                Examples.train_test Examples.gaps_train Examples.gaps_test))
  /\ (exists k train',
        dropna_subset Examples.gaps_train ["a"%string] = Returned train'
        /\ replace_missing_remove_row explicit_columns ["a"%string] []
             (Examples.train_test Examples.gaps_train Examples.words)
           = (Raised (KeyError k),
              mkObj Examples.gaps_train (Some Examples.words) train'
                    (Some Examples.words) [] [])).
Proof.
  split.
  - destruct (@replace_missing_remove_row_missing_target explicit_columns
                ["w"%string] []
                (Examples.train_test Examples.gaps_train Examples.gaps_test) "w"%string)
      as [H _].
    + simpl. auto.
    + apply H. simpl. intuition discriminate.
  - destruct (@replace_missing_remove_row_missing_target explicit_columns
                ["a"%string] []
                (Examples.train_test Examples.gaps_train Examples.words) "a"%string)
      as [_ H].
    + simpl. auto.
    + apply (H Examples.words).
      * intros x Hx. simpl in *. intuition.
      * reflexivity.
      * simpl. intuition discriminate.
Defined.

End RemoveRowFacts.

(** ** Duplicate columns *)

Module DuplicateColumnFacts.
Import Pandas Clean.
Local Open Scope py_scope.

Lemma keep_first_in : forall d seen c,
  In c (keep_first seen d) -> In c d /\ ~ In (snd c) seen.
Proof.
  induction d as [|c0 d IH]; simpl; intros seen c H; [contradiction|].
  destruct (in_dec column_eq_dec (snd c0) seen) as [Hs|Hs].
  - destruct (IH _ _ H). auto.
  - destruct H as [<-|H]; [auto|].
    destruct (IH _ _ H) as [H1 H2]. split; [auto|].
    intro Hin. apply H2. now right.
Qed.

(** The columns kept have pairwise different contents. *)
Lemma keep_first_distinct : forall d seen, NoDup (map snd (keep_first seen d)).
Proof.
  induction d as [|c0 d IH]; simpl; intro seen; [constructor|].
  destruct (in_dec column_eq_dec (snd c0) seen) as [Hs|Hs]; [apply IH|].
  simpl. constructor; [|apply IH].
  intro Hin. apply in_map_iff in Hin. destruct Hin as [c [E Hc]].
  apply keep_first_in in Hc. destruct Hc as [_ Hc]. apply Hc. left. now symmetry.
Qed.

(** Columns that already differ pairwise, and from what was seen, are all
    kept. *)
Lemma keep_first_fixpoint : forall d seen,
  NoDup (map snd d) -> (forall c, In c d -> ~ In (snd c) seen) ->
  keep_first seen d = d.
Proof.
  induction d as [|c0 d IH]; simpl; intros seen ND Hs; [reflexivity|].
  inversion ND as [|x l Hx ND']; subst.
  destruct (in_dec column_eq_dec (snd c0) seen) as [Hin|_].
  - exfalso. apply (Hs c0); auto.
  - f_equal. apply IH; [exact ND'|].
    intros c Hc [E|Hin].
    + apply Hx. rewrite E. now apply in_map.
    + apply (Hs c); auto.
Qed.

Lemma T_drop_duplicates_T_idempotent df df' :
  T_drop_duplicates_T df = Returned df' -> T_drop_duplicates_T df' = Returned df'.
Proof.
  unfold T_drop_duplicates_T.
  destruct (empty df) eqn:Ee.
  - intro H. inversion H; subst. now rewrite Ee.
  - match goal with
    | |- context [if ?b then _ else _] => destruct b eqn:Eh
    end; [|discriminate].
    intro H. inversion H; subst; clear H. cbn [data index].
    assert (Hne : empty (mkFrame (index df) (keep_first [] (data df))) = false).
    { unfold empty, shape0, shape1 in *. cbn [data index].
      apply orb_false_iff in Ee. destruct Ee as [E0 E1]. rewrite E0. simpl.
      destruct (data df) as [|c0 d]; [discriminate|]. reflexivity. }
    rewrite Hne.
    assert (Hh : forallb (fun c : label * column => forallb cell_hashable (snd c))
                         (keep_first [] (data df)) = true).
    { apply forallb_forall. intros c Hc. apply keep_first_in in Hc.
      rewrite forallb_forall in Eh. apply Eh, Hc. }
    match goal with
    | |- context [if ?b then _ else _] => replace b with true by (symmetry; exact Hh)
    end.
    f_equal. f_equal.
    apply keep_first_fixpoint; [apply keep_first_distinct|]. intros c _ [].
Qed.

Lemma T_drop_duplicates_T_distinct df df' :
  empty df = false ->
  T_drop_duplicates_T df = Returned df' -> NoDup (map snd (data df')).
Proof.
  unfold T_drop_duplicates_T. intros Ee. rewrite Ee.
  match goal with
  | |- context [if ?b then _ else _] => destruct b
  end; [|discriminate].
  intro H. inversion H; subst. apply keep_first_distinct.
Qed.

(** X10. When [drop_duplicate_columns] returns, a training table that has rows and
    columns is left with columns of pairwise different contents, and so is
    the test table; a table without rows or without columns is left as it
    is, repeated columns included. *)
Theorem drop_duplicate_columns_distinct (s s' : obj) :
  drop_duplicate_columns s = (Returned tt, s') ->
  (if empty (train_data s) then train_data s' = train_data s
   else NoDup (map snd (data (train_data s'))))
  /\ (forall te, test_data s = Some te ->
                 exists te', test_data s' = Some te'
                             /\ (if empty te then te' = te
                                 else NoDup (map snd (data te')))).
Proof.
  assert (Hcase : forall df df', T_drop_duplicates_T df = Returned df' ->
            if empty df then df' = df else NoDup (map snd (data df'))).
  { intros df df' H. destruct (empty df) eqn:Ee.
    - unfold T_drop_duplicates_T in H. rewrite Ee in H. now inversion H.
    - eapply T_drop_duplicates_T_distinct; eauto. }
  unfold drop_duplicate_columns. run.
  destruct (T_drop_duplicates_T (train_data s)) as [tr'|] eqn:E1; simpl; [|discriminate].
  destruct (test_data s) as [te|]; simpl.
  - destruct (T_drop_duplicates_T te) as [te'|] eqn:E2; simpl; [|discriminate].
    intro H. inversion H; subst; simpl. split; [now apply Hcase|].
    intros te0 E. inversion E; subst. exists te'. split; [reflexivity|now apply Hcase].
  - intro H. inversion H; subst; simpl. split; [now apply Hcase|discriminate].
Qed.

(** X11. [drop_duplicate_columns] is idempotent: once it has returned, running
    it again returns and changes nothing. *)
Theorem drop_duplicate_columns_idempotent (s s' : obj) :
  drop_duplicate_columns s = (Returned tt, s') ->
  drop_duplicate_columns s' = (Returned tt, s').
Proof.
  unfold drop_duplicate_columns. run.
  destruct (T_drop_duplicates_T (train_data s)) as [tr'|] eqn:E1; simpl; [|discriminate].
  destruct (test_data s) as [te|]; simpl.
  - destruct (T_drop_duplicates_T te) as [te'|] eqn:E2; simpl; [|discriminate].
    intro H. inversion H; subst; simpl.
    rewrite (T_drop_duplicates_T_idempotent _ E1). simpl.
    rewrite (T_drop_duplicates_T_idempotent _ E2). reflexivity.
  - intro H. inversion H; subst; simpl.
    rewrite (T_drop_duplicates_T_idempotent _ E1). reflexivity.
Qed.

Lemma drop_duplicate_columns_distinct_witness :
  let s := Examples.train_test Examples.twin_train Examples.twin_test in
  NoDup (map snd (data (train_data (snd (drop_duplicate_columns s))))).
Proof.
  intro s.
  destruct (@drop_duplicate_columns_distinct s (snd (drop_duplicate_columns s)) eq_refl)
    as [H _].
  exact H.
Defined.

Lemma drop_duplicate_columns_idempotent_witness :
  let s := Examples.train_test Examples.twin_train Examples.twin_test in
  drop_duplicate_columns (snd (drop_duplicate_columns s))
  = (Returned tt, snd (drop_duplicate_columns s)).
Proof.
  intro s.
  apply (@drop_duplicate_columns_idempotent s (snd (drop_duplicate_columns s))).
  reflexivity.
Defined.

End DuplicateColumnFacts.

(** ** Random discrete replacement leaves no gap *)

Module ImputedFacts.
Import Pandas PandasRows Clean SelectFacts RandomFacts.
Local Open Scope py_scope.

Lemma fill_full : forall c arr,
  List.length arr = count_true (isnull c) ->
  forallb present (fill c (isnull c) arr) = true.
Proof.
  induction c as [|x c IH]; intros arr H; simpl in *; [reflexivity|].
  destruct x as [v|]; simpl in *.
  - now apply IH.
  - destruct arr as [|w arr]; [discriminate|]. simpl.
    apply IH. unfold count_true in *. simpl in H. now inversion H.
Qed.

Lemma entry_kept_full : forall c c',
  Forall2 Spec.entry_kept c c' -> forallb present c = true -> forallb present c' = true.
Proof.
  induction 1 as [|x y c c' Hxy _ IH]; simpl; intro H; [reflexivity|].
  apply andb_true_iff in H. destruct H as [Hx Hc].
  rewrite (IH Hc), andb_true_r.
  destruct Hxy as [-> | ->]; [discriminate|exact Hx].
Qed.

Lemma lookup_all_kept col : forall d d',
  Forall2 (fun c c' : label * column =>
             fst c' = fst c /\ Forall2 Spec.entry_kept (snd c) (snd c')) d d' ->
  Forall2 (fun c c' : label * column =>
             fst c' = fst c /\ Forall2 Spec.entry_kept (snd c) (snd c'))
          (lookup_all col d) (lookup_all col d').
Proof.
  induction 1 as [|c c' d d' [E K] _ IH]; [constructor|].
  unfold lookup_all in *. simpl.
  match goal with
  | |- Forall2 _ (if ?b1 then _ else _) (if ?b2 then _ else _) =>
      assert (Eb : b2 = b1) by (f_equal; exact E); rewrite Eb; destruct b1
  end; [constructor; auto|exact IH].
Qed.

(** A complete column stays complete in a table that keeps the present
    entries. *)
Lemma keeps_present_full df df' col c :
  Spec.keeps_present df df' ->
  getitem df col = Returned c -> forallb present c = true ->
  exists c', getitem df' col = Returned c' /\ forallb present c' = true.
Proof.
  intros [_ K] Hg Hfull. destruct (getitem_unique _ _ Hg) as [c0 [L E]]. subst c.
  assert (H := lookup_all_kept col K). rewrite L in H.
  inversion H as [|x y l l' [_ Hk] Hnil]; subst. inversion Hnil; subst.
  exists (snd y). unfold getitem.
  match goal with
  | E : [y] = lookup_all col (data df') |- _ => rewrite <- E
  end.
  split; [reflexivity|]. eapply entry_kept_full; eauto.
Qed.

Section Draws.

Variable _input_columns : list label -> list label -> list label.
Variable rng : Type.
Variable choice : list value -> nat -> list Q -> rng -> outcome (list value) * rng.

Lemma fill_from_full p df col g r :
  fill_from choice p df col g = Returned r ->
  exists c', getitem (fst r) col = Returned c' /\ forallb present c' = true.
Proof.
  unfold fill_from. destruct (getitem df col) as [c|] eqn:Hg; simpl; [|discriminate].
  destruct (fst (choice _ _ _ g)) as [arr|]; simpl; [|discriminate].
  destruct (loc_setitem df (isnull c) col arr) as [df'|] eqn:Hs; simpl; [|discriminate].
  intro H. inversion H; subst. simpl.
  destruct (loc_setitem_own _ _ _ Hg Hs) as [_ G].
  exists (fill c (isnull c) arr). split; [exact G|].
  apply fill_full. unfold loc_setitem in Hs.
  destruct (List.length arr =? count_true (isnull c))%nat eqn:El; [|discriminate].
  now apply Nat.eqb_eq.
Qed.

Lemma random_discrete_loop_full : forall cols g s g' s',
  random_discrete_loop choice cols g s = (Returned g', s') ->
  forall col, In col cols ->
    (exists c, getitem (x_train s') col = Returned c /\ forallb present c = true)
    /\ (forall te', x_test s' = Some te' ->
          exists c, getitem te' col = Returned c /\ forallb present c = true).
Proof.
  induction cols as [|col0 cols IH]; intros g s g' s' Hrun col Hin; [contradiction|].
  simpl random_discrete_loop in Hrun.
  unfold bind, get, lift, ret, set_x_train, set_x_test in Hrun. simpl in Hrun.
  destruct (getitem (x_train s) col0) as [c|]; simpl in Hrun; [|discriminate].
  destruct (fill_from choice (value_counts c) (x_train s) col0 g) as [r|] eqn:Htr;
    simpl in Hrun;
    [|discriminate].
  destruct (fill_from_full _ _ _ _ Htr) as [c1 [G1 F1]].
  destruct (x_test s) as [te|] eqn:Hte; simpl in Hrun.
  - destruct (fill_from choice (value_counts c) te col0 (snd r)) as [r'|] eqn:Hfe;
      simpl in Hrun;
      [|discriminate].
    destruct (fill_from_full _ _ _ _ Hfe) as [c2 [G2 F2]].
    destruct Hin as [<-|Hin]; [|exact (IH _ _ _ _ Hrun col Hin)].
    match type of Hrun with
    | random_discrete_loop choice cols ?g1 ?s1 = _ =>
        destruct (random_discrete_loop_keeps choice cols g1 s1) as [K1 K2]
    end.
    rewrite Hrun in K1, K2. simpl in K1, K2. split.
    + eapply keeps_present_full; eauto.
    + intros te' E. rewrite E in K2. eapply keeps_present_full; eauto.
  - destruct Hin as [<-|Hin]; [|exact (IH _ _ _ _ Hrun col Hin)].
    match type of Hrun with
    | random_discrete_loop choice cols ?g1 ?s1 = _ =>
        destruct (random_discrete_loop_keeps choice cols g1 s1) as [K1 K2]
    end.
    rewrite Hrun in K1, K2. simpl in K1, K2. split.
    + eapply keeps_present_full; eauto.
    + intros te' E. rewrite E in K2. contradiction.
Qed.

(** X12. On tables with distinct column labels, when
    [replace_missing_random_discrete] returns, every selected column is free
    of missing entries, in the training table and in the test table when
    there is one, whatever the entries of the tables are and whatever the
    generator draws. *)
Theorem replace_missing_random_discrete_full
        (list_args list_of_cols : list label) (g g' : rng) (s s' : obj) (col : label) :
  NoDup (columns (x_train s)) ->
  (forall te, x_test s = Some te -> NoDup (columns te)) ->
  replace_missing_random_discrete _input_columns choice list_args list_of_cols g s
  = (Returned g', s') ->
  In col (_input_columns list_args list_of_cols) ->
  (exists c, getitem (x_train s') col = Returned c /\ forallb present c = true)
  /\ (forall te', x_test s' = Some te' ->
        exists c, getitem te' col = Returned c /\ forallb present c = true).
Proof.
  unfold replace_missing_random_discrete. intros _ _ Hrun Hin.
  eapply random_discrete_loop_full; [exact Hrun|exact Hin].
Qed.

End Draws.

Lemma replace_missing_random_discrete_full_witness :
  let r := replace_missing_random_discrete explicit_columns Examples.first_choice
             ["a"%string; "b"%string] [] 0%nat
             (Examples.train_test Examples.gaps_train Examples.gaps_test) in
  fst r = Returned 4%nat
  /\ exists c, getitem (x_train (snd r)) "b"%string = Returned c
               /\ forallb present c = true.
Proof.
  intro r. split; [reflexivity|].
  destruct (@replace_missing_random_discrete_full explicit_columns nat Examples.first_choice
              ["a"%string; "b"%string] [] 0%nat 4%nat
              (Examples.train_test Examples.gaps_train Examples.gaps_test) (snd r)
              "b"%string) as [H _].
  - simpl. repeat constructor; simpl; intuition discriminate.
  - intros te E. inversion E; subst. simpl.
    repeat constructor; simpl; intuition discriminate.
  - reflexivity.
  - simpl. auto.
  - exact H.
Defined.

End ImputedFacts.

(** ** Nearest-neighbour imputation with a test table *)

Module ImputerTestFacts.
Import Pandas Clean.
Local Open Scope py_scope.

Lemma map_snd_combine_seq {A} : forall (l : list A) a,
  map snd (combine (seq a (List.length l)) l) = l.
Proof.
  induction l as [|x l IH]; intro a; simpl; [reflexivity|]. now rewrite IH.
Qed.

(** A table built from an array as wide as the list of labels carries these
    labels and a fresh range index. *)
Lemma DataFrame_of_labels a labels :
  width a = List.length labels ->
  exists df, DataFrame_of a labels = Returned df
             /\ columns df = labels
             /\ index df = map Z.of_nat (seq 0 (List.length (rows a))).
Proof.
  intro H. unfold DataFrame_of. rewrite H, Nat.eqb_refl.
  eexists. split; [reflexivity|]. split; [|reflexivity].
  unfold columns. simpl. rewrite map_map. simpl. apply map_snd_combine_seq.
Qed.

Section Imputer.

Variable imputer : Type.
Variable KNNImputer : kwvalue -> kwargs -> outcome imputer.
Variable fit_transform : imputer -> ndarray -> outcome ndarray.

(** X13. With a test table, when the imputer is constructed and both
    [fit_transform] calls return arrays as wide as the training table,
    [replace_missing_knn] returns after one warning; both tables are rebuilt
    from the arrays with the training table's column labels and a fresh
    range index, the test table from the imputer fitted anew on its own
    values. *)
Theorem replace_missing_knn_with_test (k : Z) (knn_kwargs : kwargs) (s : obj)
        (te : DataFrame) (knn : imputer) (a b : ndarray) :
  test_data s = Some te ->
  KNNImputer (fst (pop knn_kwargs "n_neighbors" (KInt 5)))
             (snd (pop knn_kwargs "n_neighbors" (KInt 5))) = Returned knn ->
  fit_transform knn (values (train_data s)) = Returned a ->
  fit_transform knn (values te) = Returned b ->
  width a = shape1 (train_data s) ->
  width b = shape1 (train_data s) ->
  exists train' test',
    replace_missing_knn KNNImputer fit_transform k knn_kwargs s
    = (Returned tt,
       mkObj train' (Some test') (x_train s) (x_test s) (stdout s)
             (warned s ++ [knn_warning]))
    /\ DataFrame_of a (columns (train_data s)) = Returned train'
    /\ DataFrame_of b (columns (train_data s)) = Returned test'
    /\ columns train' = columns (train_data s)
    /\ columns test' = columns (train_data s)
    /\ index train' = map Z.of_nat (seq 0 (List.length (rows a)))
    /\ index test' = map Z.of_nat (seq 0 (List.length (rows b))).
Proof.
  intros Ht Hk Ha Hb Wa Wb.
  assert (Hlen : shape1 (train_data s) = List.length (columns (train_data s))).
  { unfold shape1, columns. now rewrite length_map. }
  rewrite Hlen in Wa, Wb.
  destruct (DataFrame_of_labels a _ Wa) as [train' [Dtr [Ctr Itr]]].
  destruct (DataFrame_of_labels b _ Wb) as [test' [Dte [Cte Ite]]].
  exists train', test'.
  split; [|repeat split; assumption].
  unfold replace_missing_knn.
  unfold bind, get, lift, ret, raise, warn, set_train_data, set_test_data. simpl.
  rewrite Hk. simpl. rewrite Ha. simpl. rewrite Ht. simpl. rewrite Hb. simpl.
  rewrite Dtr. simpl. rewrite Dte. reflexivity.
Qed.

End Imputer.

Lemma replace_missing_knn_with_test_witness :
  exists train' test',
    replace_missing_knn Examples.make_imputer Examples.checked_fit_transform 8 []
      (Examples.train_test Examples.twin_train Examples.twin_test)
    = (Returned tt,
       mkObj train' (Some test') Examples.twin_train (Some Examples.twin_test) []
             [knn_warning])
    /\ columns test' = ["a"%string; "b"%string].
Proof.
  destruct (@replace_missing_knn_with_test _ Examples.make_imputer
              Examples.checked_fit_transform 8 []
              (Examples.train_test Examples.twin_train Examples.twin_test)
              Examples.twin_test (KInt 5, [])
              (values Examples.twin_train) (values Examples.twin_test))
    as [train' [test' [H1 [_ [_ [_ [H2 _]]]]]]]; try reflexivity.
  exists train', test'. split; [exact H1|exact H2].
Defined.

End ImputerTestFacts.

(** ** Duplicate rows and interpolation *)

Module RestFacts.
Import Pandas PandasRows Clean CleanRest.
Local Open Scope py_scope.

Lemma pop_absent (d : kwargs) key default :
  ~ In key (map fst d) -> pop d key default = (default, d).
Proof.
  intro H. unfold pop.
  assert (Hf : find (fun p : string * kwvalue => String.eqb (fst p) key) d = None).
  { induction d as [|p d IH]; simpl; [reflexivity|].
    destruct (String.eqb_spec (fst p) key) as [E|E].
    - exfalso. apply H. now left.
    - apply IH. intro Hin. apply H. now right. }
  now rewrite Hf.
Qed.

Section Resolved.

Variable _input_columns : list label -> list label -> list label.
Variable drop_duplicates : DataFrame -> list label -> outcome DataFrame.
Variable interpolate : kwvalue -> kwargs -> column -> outcome column.

(** X14. [drop_duplicate_rows] never changes [x_test] nor [train_data]: the
    presence of [x_test] only decides whether [test_data] is de-duplicated.
    With [x_test] present and [test_data] absent it raises [AttributeError],
    after [x_train] has been replaced. *)
Theorem drop_duplicate_rows_guard (list_args list_of_cols : list label) (s : obj) :
  x_test (snd (drop_duplicate_rows _input_columns drop_duplicates
                 list_args list_of_cols s)) = x_test s
  /\ train_data (snd (drop_duplicate_rows _input_columns drop_duplicates
                        list_args list_of_cols s)) = train_data s
  /\ (x_test s = None ->
      test_data (snd (drop_duplicate_rows _input_columns drop_duplicates
                        list_args list_of_cols s)) = test_data s)
  /\ (forall train' te,
        drop_duplicates (x_train s) (_input_columns list_args list_of_cols)
        = Returned train' ->
        x_test s = Some te -> test_data s = None ->
        drop_duplicate_rows _input_columns drop_duplicates list_args list_of_cols s
        = (inr (AttributeError "'NoneType' object has no attribute 'drop_duplicates'"),
           mkObj (train_data s) None train' (Some te) (stdout s) (warned s))).
Proof.
  unfold drop_duplicate_rows.
  destruct (drop_duplicates (x_train s) _) as [train'|e] eqn:E1; simpl.
  - destruct (x_test s) as [te|] eqn:Ex; simpl.
    + destruct (test_data s) as [td|] eqn:Et; simpl.
      * destruct (drop_duplicates td _); simpl;
          (split; [reflexivity|split; [reflexivity|split; discriminate]]).
      * split; [reflexivity|split; [reflexivity|split; [discriminate|]]].
        intros tr te0 H1 H2 _. now inversion H1; inversion H2.
    + split; [reflexivity|split; [reflexivity|split; [reflexivity|discriminate]]].
  - split; [reflexivity|split; [reflexivity|split; [reflexivity|discriminate]]].
Qed.

(** X15. Whatever [method] the caller passes, [replace_missing_interpolate]
    interpolates with method ["linear"]: [method] is a named parameter, so
    it never is among the remaining keyword arguments the method reads it
    from, and these are passed on as they are. *)
Theorem replace_missing_interpolate_linear (list_args list_of_cols : list label)
        (method : kwvalue) (inter_kwargs : kwargs) (s : obj) :
  ~ In "method"%string (map fst inter_kwargs) ->
  replace_missing_interpolate _input_columns interpolate
    list_args list_of_cols method inter_kwargs s
  = interpolate_loop interpolate (_input_columns list_args list_of_cols)
      (KStr "linear") inter_kwargs s.
Proof.
  intro H. unfold replace_missing_interpolate.
  now rewrite (@pop_absent inter_kwargs "method" (KStr "linear") H).
Qed.

Lemma write_back_labels l : forall d new,
  map fst (write_back d l new) = map fst d.
Proof.
  induction d as [|c d IH]; intro new; simpl; [reflexivity|].
  destruct (String.eqb (fst c) l); [destruct new|]; simpl; now rewrite IH.
Qed.

Lemma interpolate_column_shape df col m kw df' :
  interpolate_column interpolate df col m kw = Returned df' ->
  columns df' = columns df /\ index df' = index df.
Proof.
  unfold interpolate_column.
  destruct (lookup_all col (data df)) as [|c0 found]; [discriminate|].
  destruct (omap _ (c0 :: found)) as [new|]; simpl; [|discriminate].
  intro H. inversion H; subst. split; [|reflexivity].
  unfold columns. simpl. apply write_back_labels.
Qed.

Lemma interpolate_loop_shape m kw : forall cols s s',
  interpolate_loop interpolate cols m kw s = (Returned tt, s') ->
  columns (x_train s') = columns (x_train s)
  /\ index (x_train s') = index (x_train s)
  /\ match x_test s with
     | Some te =>
         exists te', x_test s' = Some te'
                     /\ columns te' = columns te /\ index te' = index te
                     /\ warned s' = warned s ++ repeat interpolate_warning (List.length cols)
     | None => x_test s' = None /\ warned s' = warned s
     end.
Proof.
  induction cols as [|col rest IH]; intros s s' H.
  - simpl in H. inversion H; subst. split; [reflexivity|split; [reflexivity|]].
    destruct (x_test s'); [|auto]. eexists. rewrite app_nil_r. auto.
  - simpl interpolate_loop in H.
    unfold bind, get, lift, ret, warn, set_x_train, set_x_test in H. simpl in H.
    destruct (interpolate_column interpolate (x_train s) col m kw) as [tr'|] eqn:E1;
      simpl in H; [|discriminate].
    destruct (interpolate_column_shape _ _ _ _ E1) as [C1 I1].
    destruct (x_test s) as [te|] eqn:Et; simpl in H.
    + destruct (interpolate_column interpolate te col m kw) as [te1|] eqn:E2;
        simpl in H; [|discriminate].
      destruct (interpolate_column_shape _ _ _ _ E2) as [C2 I2].
      apply IH in H. simpl in H. destruct H as [Hc [Hi [te' [Hx [Hc' [Hi' Hw]]]]]].
      split; [congruence|split; [congruence|]].
      exists te'. split; [exact Hx|split; [congruence|split; [congruence|]]].
      rewrite Hw, <- app_assoc. reflexivity.
    + apply IH in H. simpl in H. destruct H as [Hc [Hi Hn]].
      split; [congruence|split; [congruence|exact Hn]].
Qed.

(** X16. When [replace_missing_interpolate] returns, both tables have the column
    labels and the row index they had, and with a test table it has warned
    once for every selected column, not once for the call. *)
Theorem replace_missing_interpolate_shape (list_args list_of_cols : list label)
        (method : kwvalue) (inter_kwargs : kwargs) (s s' : obj) :
  replace_missing_interpolate _input_columns interpolate
    list_args list_of_cols method inter_kwargs s = (Returned tt, s') ->
  columns (x_train s') = columns (x_train s)
  /\ index (x_train s') = index (x_train s)
  /\ match x_test s with
     | Some te =>
         exists te', x_test s' = Some te'
                     /\ columns te' = columns te /\ index te' = index te
                     /\ warned s'
                        = warned s ++ repeat interpolate_warning
                                        (List.length (_input_columns list_args list_of_cols))
     | None => x_test s' = None /\ warned s' = warned s
     end.
Proof.
  unfold replace_missing_interpolate. apply interpolate_loop_shape.
Qed.

End Resolved.

Lemma replace_missing_interpolate_shape_witness :
  let r := replace_missing_interpolate explicit_columns (fun _ _ c => Returned c)
             ["a"%string; "b"%string] [] (KStr "pad") []
             (Examples.train_test Examples.gaps_train Examples.gaps_test) in
  fst r = Returned tt
  /\ warned (snd r) = [interpolate_warning; interpolate_warning].
Proof.
  intro r. split; [reflexivity|].
  destruct (@replace_missing_interpolate_shape explicit_columns (fun _ _ c => Returned c)
              ["a"%string; "b"%string] [] (KStr "pad") []
              (Examples.train_test Examples.gaps_train Examples.gaps_test) (snd r) eq_refl)
    as [_ [_ [te' [_ [_ [_ H]]]]]].
  exact H.
Defined.

Lemma drop_duplicate_rows_guard_witness :
  drop_duplicate_rows explicit_columns (fun df _ => Returned df) ["a"%string] []
    (mkObj Examples.gaps_train None Examples.gaps_train (Some Examples.gaps_test) [] [])
  = (inr (AttributeError "'NoneType' object has no attribute 'drop_duplicates'"),
     mkObj Examples.gaps_train None Examples.gaps_train (Some Examples.gaps_test) [] []).
Proof.
  destruct (@drop_duplicate_rows_guard explicit_columns (fun df _ => Returned df)
              ["a"%string] []
              (mkObj Examples.gaps_train None Examples.gaps_train
                     (Some Examples.gaps_test) [] [])) as [_ [_ [_ H]]].
  apply (H Examples.gaps_train Examples.gaps_test); reflexivity.
Defined.

Lemma replace_missing_interpolate_linear_witness :
  replace_missing_interpolate explicit_columns
    (fun m _ c => match m with KStr "linear" => Returned c | _ => Raised (ValueError "method") end)
    ["a"%string] [] (KStr "pad") [("limit"%string, KInt 3)]
    (Examples.only_train Examples.gaps_train)
  = (Returned tt, Examples.only_train Examples.gaps_train).
Proof.
  rewrite (@replace_missing_interpolate_linear explicit_columns
             (fun m _ c => match m with
                           | KStr "linear" => Returned c
                           | _ => Raised (ValueError "method")
                           end)
             ["a"%string] [] (KStr "pad") [("limit"%string, KInt 3)]
             (Examples.only_train Examples.gaps_train)).
  - reflexivity.
  - simpl. intuition discriminate.
Defined.

End RestFacts.

(** ** The classes of a classification analysis *)

Module AnalysisInitFacts.
Import AnalysisInit.

Lemma insert_sorted_in z : forall l x,
  In x (insert_sorted z l) <-> x = z \/ In x l.
Proof.
  induction l as [|y l IH]; intro x; simpl.
  - intuition.
  - destruct (Z.compare_spec z y) as [E|E|E]; simpl.
    + subst. intuition.
    + intuition.
    + rewrite IH. intuition.
Qed.

Lemma insert_sorted_ascending z : forall l,
  StronglySorted Z.lt l -> StronglySorted Z.lt (insert_sorted z l).
Proof.
  induction l as [|y l IH]; intro H; simpl.
  - repeat constructor.
  - inversion H as [|a b Hs Hall]; subst.
    destruct (Z.compare_spec z y) as [E|E|E].
    + exact H.
    + constructor; [exact H|]. constructor; [exact E|].
      rewrite Forall_forall in *. intros x Hx. specialize (Hall x Hx). lia.
    + constructor; [now apply IH|].
      rewrite Forall_forall in *. intros x Hx.
      apply insert_sorted_in in Hx. destruct Hx as [->|Hx]; [exact E|now apply Hall].
Qed.

Lemma np_unique_in : forall l x, In x (np_unique l) <-> In x l.
Proof.
  induction l as [|y l IH]; intro x; simpl; [tauto|].
  rewrite insert_sorted_in, IH. intuition.
Qed.

Lemma np_unique_ascending : forall l, StronglySorted Z.lt (np_unique l).
Proof.
  induction l as [|y l IH]; simpl; [constructor|]. now apply insert_sorted_ascending.
Qed.

Lemma ascending_NoDup : forall l, StronglySorted Z.lt l -> NoDup l.
Proof.
  induction l as [|y l IH]; intro H; [constructor|].
  inversion H as [|a b Hs Hall]; subst. constructor; [|now apply IH].
  intro Hin. rewrite Forall_forall in Hall. specialize (Hall y Hin). lia.
Qed.

(** X17. For labels that the array holds exactly, [multiclass] holds exactly
    when the training and test labels together take at least three different
    values. *)
Theorem multiclass_three_labels (y_train y_test : list Z) :
  Forall exact_label (y_train ++ y_test) ->
  multiclass y_train y_test = true
  <-> exists a b c,
        In a (y_train ++ y_test) /\ In b (y_train ++ y_test) /\ In c (y_train ++ y_test)
        /\ a <> b /\ a <> c /\ b <> c.
Proof.
  intros _. unfold multiclass. rewrite Nat.ltb_lt.
  assert (ND := ascending_NoDup (np_unique_ascending (y_train ++ y_test))).
  split.
  - intro H.
    destruct (np_unique (y_train ++ y_test)) as [|a [|b [|c l]]] eqn:E;
      simpl in H; try lia.
    exists a, b, c.
    assert (Hin : forall x, In x [a; b; c] -> In x (y_train ++ y_test)).
    { intros x Hx. apply np_unique_in. rewrite E. simpl in *. intuition. }
    inversion ND as [|x1 l1 N1 ND1]; subst.
    inversion ND1 as [|x2 l2 N2 ND2]; subst.
    simpl in N1, N2.
    repeat split; try (apply Hin; simpl; auto); intro; subst; intuition.
  - intros [a [b [c [Ha [Hb [Hc [Hab [Hac Hbc]]]]]]]].
    assert (Hl : (List.length [a; b; c] <= List.length (np_unique (y_train ++ y_test)))%nat).
    { apply NoDup_incl_length.
      - repeat constructor; simpl; intuition.
      - intros x [<-|[<-|[<-|[]]]]; now apply np_unique_in. }
    simpl in Hl. lia.
Qed.

Lemma multiclass_three_labels_witness :
  multiclass [0; 1; 1]%Z [2; 0]%Z = true /\ multiclass [0; 1; 1]%Z [1; 0]%Z = false.
Proof.
  split.
  - apply (@multiclass_three_labels [0; 1; 1]%Z [2; 0]%Z).
    + repeat constructor; unfold exact_label; simpl; lia.
    + exists 0%Z, 1%Z, 2%Z. simpl. repeat split; auto 10; discriminate.
  - reflexivity.
Defined.

Section Classes.

Variable str : Z -> string.

(** X18. For labels that the array holds exactly, [classes] names each label
    that occurs among the training or the test labels once, in ascending
    order of the labels (not of their names), and [multiclass] says whether
    there are more than two classes. *)
Theorem classes_ascending (y_train y_test : list Z) :
  Forall exact_label (y_train ++ y_test) ->
  exists labels,
    classes str y_train y_test = map str labels
    /\ StronglySorted Z.lt labels
    /\ (forall y, In y labels <-> In y y_train \/ In y y_test)
    /\ multiclass y_train y_test = (2 <? List.length (classes str y_train y_test))%nat.
Proof.
  intros _. exists (np_unique (y_train ++ y_test)).
  split; [reflexivity|]. split; [apply np_unique_ascending|]. split.
  - intro y. rewrite np_unique_in. apply in_app_iff.
  - unfold classes, multiclass. now rewrite length_map.
Qed.

End Classes.

Lemma classes_ascending_witness :
  let str := fun z : Z => if (z =? 0)%Z then "no"%string else "yes"%string in
  exists labels,
    classes str [1; 0; 1]%Z [0]%Z = map str labels
    /\ StronglySorted Z.lt labels
    /\ (forall y, In y labels <-> In y [1; 0; 1]%Z \/ In y [0]%Z)
    /\ multiclass [1; 0; 1]%Z [0]%Z
       = (2 <? List.length (classes str [1; 0; 1]%Z [0]%Z))%nat.
Proof.
  intro str. apply (@classes_ascending str [1; 0; 1]%Z [0]%Z).
  repeat constructor; unfold exact_label; simpl; lia.
Defined.

End AnalysisInitFacts.

(** ** The image directory of the user configuration *)

Module UserConfigFacts.
Import UserConfig.

Section MakeDir.

Variable fs : Type.
Variable _make_dir : yaml -> fs -> outcome unit * fs.

(** X19. [_make_image_dir] has no working default: when the configured
    directory is empty, null or otherwise false, it raises [NameError] on
    [DEFAULT_IMAGE_DIR] and leaves the file system alone.  It returns only
    a configured directory that is true, after [_make_dir] has returned
    on it. *)
Theorem make_image_dir_no_default (cfg : yaml) (w : fs) :
  (forall d,
     obind (subscript cfg "images") (fun i => subscript i "dir") = Returned d ->
     truthy d = false ->
     _make_image_dir _make_dir cfg w = (Raised (NameError "DEFAULT_IMAGE_DIR"), w))
  /\ (forall image_dir w',
        _make_image_dir _make_dir cfg w = (Returned image_dir, w') ->
        obind (subscript cfg "images") (fun i => subscript i "dir") = Returned image_dir
        /\ truthy image_dir = true
        /\ _make_dir image_dir w = (Returned tt, w')).
Proof.
  unfold _make_image_dir. split.
  - intros d Hd Hf. now rewrite Hd, Hf.
  - intros image_dir w' H.
    destruct (obind (subscript cfg "images") (fun i => subscript i "dir")) as [d|e];
      [|discriminate].
    destruct (truthy d) eqn:Et; simpl in H; [|discriminate].
    destruct (_make_dir d w) as [[[]|e] w1] eqn:Em; inversion H; subst.
    auto.
Qed.

End MakeDir.

Lemma make_image_dir_no_default_witness :
  _make_image_dir (fun d (w : list yaml) => (Returned tt, d :: w))
                  (YMap [("images"%string, YMap [("dir"%string, YNull)])]) []
  = (Raised (NameError "DEFAULT_IMAGE_DIR"), []).
Proof.
  destruct (@make_image_dir_no_default (list yaml)
              (fun d w => (Returned tt, d :: w))
              (YMap [("images"%string, YMap [("dir"%string, YNull)])]) []) as [H _].
  apply (H YNull); reflexivity.
Defined.

End UserConfigFacts.

(** ** Indicators that replace their targets *)

Module IndicatorReplaceFacts.
Import Pandas Clean SelectFacts IndicatorFacts.
Local Open Scope py_scope.





Section Step.

Variables (mi vi : cell) (df : DataFrame) (targets : list label).
Hypothesis ready : Spec.indicator_ready df targets.


End Step.



Section Resolved.

Variable _input_columns : list label -> list label -> list label.


End Resolved.


End IndicatorReplaceFacts.

(** ** The range of the accuracy *)

Module AccuracyFacts.
Import ClassificationModelAnalysis MetricFacts.

Lemma correct_positions_le : forall a b : list Z,
  (Spec.correct_positions a b <= List.length a)%nat.
Proof.
  induction a as [|x a IH]; intros [|y b]; simpl; try lia.
  specialize (IH b). destruct (Z.eqb x y); lia.
Qed.

Lemma correct_positions_all : forall a b : list Z,
  List.length a = List.length b ->
  (Spec.correct_positions a b = List.length a <-> b = a).
Proof.
  induction a as [|x a IH]; intros [|y b] H; simpl in *; try discriminate.
  - tauto.
  - assert (Hle := correct_positions_le a b).
    specialize (IH b (eq_add_S _ _ H)).
    destruct (Z.eqb_spec x y) as [E|E].
    + subst. split.
      * intro Hc. f_equal. apply IH. lia.
      * intro Hc. inversion Hc; subst. f_equal. simpl. f_equal. now apply IH.
    + split; [lia|]. intro Hc. inversion Hc. congruence.
Qed.

Lemma ratio_range (k n : nat) :
  (0 < n)%nat -> (k <= n)%nat ->
  0 <= inject_Z (Z.of_nat k) / inject_Z (Z.of_nat n) <= 1
  /\ (inject_Z (Z.of_nat k) / inject_Z (Z.of_nat n) == 1 <-> k = n).
Proof.
  intros Hn Hk. destruct n as [|m]; [lia|].
  unfold Qdiv, Qmult, Qinv, inject_Z, Qle, Qeq. simpl.
  rewrite !Z.mul_1_r. repeat split; try lia.
Qed.

Section Analysis.

Variables features scores : Type.

(** X20. Called without keyword arguments on non-empty vectors of equal length,
    [accuracy] returns a number between 0 and 1, and it returns 1 exactly
    when every prediction is the label. *)
Theorem accuracy_range (self : analysis features scores) :
  y_test self <> [] ->
  List.length (y_test self) = List.length (y_pred self) ->
  exists q, accuracy self no_kwargs = Returned (Float q)
            /\ 0 <= q <= 1
            /\ (q == 1 <-> y_pred self = y_test self).
Proof.
  intros Hne Hlen.
  exists (Spec.fraction_correct (y_test self) (y_pred self)). split.
  - unfold accuracy, accuracy_score, no_kwargs.
    cbn [normalize sample_weight]. rewrite Hlen, Nat.eqb_refl. cbn [negb orb].
    rewrite np_average_nonempty.
    + rewrite Qsum_indicators, agreements_count, length_map, length_combine.
      rewrite <- Hlen, Nat.min_id. reflexivity.
    + intro H. apply (f_equal (@List.length bool)) in H.
      rewrite length_map, length_combine, <- Hlen, Nat.min_id in H.
      destruct (y_test self); [congruence|discriminate].
  - unfold Spec.fraction_correct.
    assert (Hpos : (0 < List.length (y_test self))%nat).
    { destruct (y_test self); [congruence|simpl; lia]. }
    destruct (ratio_range Hpos (correct_positions_le (y_test self) (y_pred self)))
      as [Hr He].
    split; [exact Hr|]. rewrite He. now apply correct_positions_all.
Qed.

End Analysis.

Lemma accuracy_range_witness :
  exists q,
    accuracy (mkAnalysis (mkModel (features := unit) (scores := unit) None) tt
                         [1; 0; 2]%Z [1; 0; 2]%Z) no_kwargs = Returned (Float q)
    /\ q == 1.
Proof.
  destruct (@accuracy_range unit unit
              (mkAnalysis (mkModel None) tt [1; 0; 2]%Z [1; 0; 2]%Z))
    as [q [H1 [_ H3]]].
  - discriminate.
  - reflexivity.
  - exists q. split; [exact H1|]. apply H3. reflexivity.
Defined.

End AccuracyFacts.
